(** * homework-cloner: a shallow embedding of [cloneHw.ts]

    The program reads a repository name from the command line, asks the
    hosting API for the pull requests of that repository, keeps those
    opened by roster students from a default branch, clones each of them
    into a per-student folder and reports who is missing.

    The development follows the source function by function.  Platform
    services the program calls but does not define (the file system, the
    child-process launcher, [JSON.parse], [Date], the HTTP exchange) are
    the fields of a [Host] record that every effectful function receives. *)

From Stdlib Require Import ZArith String Ascii List Bool Lia.
From Stdlib Require Import Floats.SpecFloat.
From stdpp Require Import base strings list gmap pretty.

#[local] Arguments String.append !s1 s2 : simpl nomatch.

(** ** Regular expressions

    The source uses two literals, [/^\w/] and [/^--[\w-]+/], both anchored
    at the start of the subject and open at its end.  They are embedded in
    a small regular-expression type whose matcher works by derivatives. *)

Module RegExp.

Inductive t : Type :=
| Never
| Empty
| Class (p : ascii -> bool)
| Seq (r1 r2 : t)
| Alt (r1 r2 : t)
| Star (r : t).

(** [r+] *)
Definition Plus (r : t) : t := Seq r (Star r).

Fixpoint nullable (r : t) : bool :=
  match r with
  | Never => false
  | Empty => true
  | Class _ => false
  | Seq r1 r2 => nullable r1 && nullable r2
  | Alt r1 r2 => nullable r1 || nullable r2
  | Star _ => true
  end.

Fixpoint deriv (c : ascii) (r : t) : t :=
  match r with
  | Never => Never
  | Empty => Never
  | Class p => if p c then Empty else Never
  | Seq r1 r2 =>
      if nullable r1
      then Alt (Seq (deriv c r1) r2) (deriv c r2)
      else Seq (deriv c r1) r2
  | Alt r1 r2 => Alt (deriv c r1) (deriv c r2)
  | Star r1 => Seq (deriv c r1) (Star r1)
  end.

(** [test r s] is [/^r/.test(s)]: some prefix of [s] is matched by [r]. *)
Fixpoint test (r : t) (s : string) : bool :=
  nullable r ||
  match s with
  | EmptyString => false
  | String c s' => test (deriv c r) s'
  end.

(** The words a regular expression denotes. *)
Inductive Matches : t -> string -> Prop :=
| MEmpty : Matches Empty ""
| MClass p c : p c = true -> Matches (Class p) (String c "")
| MSeq r1 r2 s1 s2 :
    Matches r1 s1 -> Matches r2 s2 -> Matches (Seq r1 r2) (s1 +:+ s2)
| MAltL r1 r2 s : Matches r1 s -> Matches (Alt r1 r2) s
| MAltR r1 r2 s : Matches r2 s -> Matches (Alt r1 r2) s
| MStarNil r : Matches (Star r) ""
| MStarApp r s1 s2 :
    Matches r s1 -> Matches (Star r) s2 -> Matches (Star r) (s1 +:+ s2).

End RegExp.

(** [\w]: an ASCII letter, a digit or the underscore. *)
Definition isWordChar (c : ascii) : bool :=
  let n := nat_of_ascii c in
  (((48 <=? n) && (n <=? 57)) || ((65 <=? n) && (n <=? 90))
  || ((97 <=? n) && (n <=? 122)) || (n =? 95))%nat.

Definition isHyphen (c : ascii) : bool := (nat_of_ascii c =? 45)%nat.

(** [/^\w/] *)
Definition startsWithWord : RegExp.t := RegExp.Class isWordChar.

(** [/^--[\w-]+/] *)
Definition flagPattern : RegExp.t :=
  RegExp.Seq (RegExp.Class isHyphen)
    (RegExp.Seq (RegExp.Class isHyphen)
       (RegExp.Plus (RegExp.Class (fun c => isWordChar c || isHyphen c)))).

(** ** Command line *)

Module CliArgs.
Definition RepoName : nat := 2.
End CliArgs.

Record ValidationResult := { error : option string }.

(** [repoName] is [process.argv[2]], which is [undefined] ([None]) when the
    argument is missing; [!repoName] also holds for the empty string. *)
Definition validateRepoName (repoName : option string) : ValidationResult :=
  match repoName with
  | None | Some "" =>
      {| error := Some "No repository name supplied in arguments! Exiting..." |}
  | Some repoName =>
      if negb (RegExp.test startsWithWord repoName)
      then {| error := Some "Invalid repository name! Exiting..." |}
      else {| error := None |}
  end.

Definition parseFlags (args : list string) : list string :=
  let flags := drop (CliArgs.RepoName + 1) args in
  List.filter (fun argv => RegExp.test flagPattern argv) flags.

(** ** Data model ([interfaces.ts] and the [Student] type) *)

Record Student := { name : string; username : string }.

Record User := { login : string }.
Record Repo := { full_name : string }.
Record Head := { ref : string }.
Record Base := { repo : Repo }.

(** A pull request as the pipeline reads it.  The interface declares
    [user] and [head] as always present, but the payload comes unchecked
    from [JSON.parse] and the filter itself reads both through [?.]; an
    absent one is [None].  [base.repo.full_name] is read without a guard. *)
Record GithubPR := { user : option User; head : option Head; base : Base }.

(** ** Plain objects used as dictionaries

    [studentLookup] is an object literal [{}]: its prototype is
    [Object.prototype].  Own properties are a finite map; the properties
    every such object inherits are listed here (Node's V8). *)

Definition ObjectPrototypeKeys : list string :=
  [ "constructor"; "__defineGetter__"; "__defineSetter__"; "hasOwnProperty";
    "__lookupGetter__"; "__lookupSetter__"; "isPrototypeOf";
    "propertyIsEnumerable"; "toString"; "valueOf"; "__proto__";
    "toLocaleString" ].

(** What reading [obj[key]] yields. *)
Inductive PropertyValue :=
| OwnValue (v : string)
| InheritedValue (key : string)
| Undefined.

(** [key in obj]: own or inherited. *)
Definition hasProperty (key : string) (obj : gmap string string) : bool :=
  bool_decide (is_Some (obj !! key)) || bool_decide (key ∈ ObjectPrototypeKeys).

(** [obj[key] = v] for a string [v].  [__proto__] is an accessor of
    [Object.prototype] whose setter ignores a value that is neither an
    object nor [null]; every other inherited property is a writable data
    property, so the assignment creates or overwrites an own property. *)
Definition setProperty (key v : string) (obj : gmap string string)
  : gmap string string :=
  if decide (key = "__proto__") then obj else <[key := v]> obj.

(** [obj[key]] *)
Definition getProperty (key : string) (obj : gmap string string) : PropertyValue :=
  match obj !! key with
  | Some v => OwnValue v
  | None =>
      if bool_decide (key ∈ ObjectPrototypeKeys) then InheritedValue key
      else Undefined
  end.

(** How a template literal renders the value: the inherited properties
    are built-in functions, except [__proto__], whose getter returns
    [Object.prototype] itself, and [constructor], which is [Object]. *)
Definition toString (v : PropertyValue) : string :=
  match v with
  | OwnValue s => s
  | Undefined => "undefined"
  | InheritedValue key =>
      if decide (key = "__proto__") then "[object Object]"
      else if decide (key = "constructor")
           then "function Object() { [native code] }"
           else "function " +:+ key +:+ "() { [native code] }"
  end.

(** [const studentLookup = {}; for (const student of students)
    studentLookup[student.username] = student.name] *)
Definition buildStudentLookup (students : list Student) : gmap string string :=
  fold_left (fun studentLookup student =>
               setProperty (username student) (name student) studentLookup)
            students ∅.

(** ** Submission filter *)

Definition noUserFound : string := "no user found".

(** [pullRequest.user?.login ?? "no user found"] *)
Definition resolvedUsername (pullRequest : GithubPR) : string :=
  match user pullRequest with
  | Some u => login u
  | None => noUserFound
  end.

(** [pullRequest.head?.ref !== s] *)
Definition headRefIsNot (pullRequest : GithubPR) (s : string) : bool :=
  match head pullRequest with
  | Some h => negb (String.eqb (ref h) s)
  | None => true
  end.

(** The [for ... of] loop over the pull requests, [submissions] being the
    array built so far. *)
Fixpoint filterLoop (studentLookup : gmap string string)
    (pullRequests submissions : list GithubPR) : list GithubPR :=
  match pullRequests with
  | [] => submissions
  | pullRequest :: rest =>
      let username := resolvedUsername pullRequest in
      if headRefIsNot pullRequest "main" && headRefIsNot pullRequest "master"
      then filterLoop studentLookup rest submissions
      else if hasProperty username studentLookup
           then filterLoop studentLookup rest (submissions ++ [pullRequest])
           else filterLoop studentLookup rest submissions
  end.

Definition filterStudentsPullRequests (pullRequests : list GithubPR)
    (students : list Student) : list GithubPR :=
  let studentUsernames := map username students in
  let studentLookup := buildStudentLookup students in
  filterLoop studentLookup pullRequests [].

(** ** The platform

    Values that are thrown and printed: a string, or an error object. *)
Inductive Value :=
| Str (s : string)
| Err (kind message : string).

Definition TypeError (message : string) : Value := Err "TypeError" message.

(** What [JSON.parse(body)] returned, as far as the program looks at it:
    an array (its elements read as pull requests), an object (only its
    property names matter), or [null], a number, a string or a boolean. *)
Inductive Parsed :=
| ParsedArray (items : list GithubPR)
| ParsedObject (keys : list string)
| ParsedPrimitive.

Record RequestOptions := {
  hostname : string;
  path : string;
  method : string;
  headers : list (string * string)
}.

(** How the body stream of a response finishes: ['end'] after the chunks
    [data], or ['error']. *)
Inductive BodyOutcome :=
| Ended (data : list string)
| Errored (err : string).

(** The fate of the one request: a response arrives (with its status code
    and, possibly, the [github-authentication-token-expiration] header),
    or the request itself fails. *)
Inductive HttpExchange :=
| Responded (statusCode : Z) (tokenExpiration : option string)
            (outcome : BodyOutcome)
| RequestFailed (err : Value).

Record Host := {
  (** [get(options, callback)] *)
  exchange : RequestOptions -> HttpExchange;
  (** [JSON.parse]; [None] when it throws a [SyntaxError] *)
  JSON_parse : string -> option Parsed;
  (** [Date.parse]: milliseconds since the epoch, [None] for [NaN] *)
  Date_parse : string -> option Z;
  (** [Date.now()] *)
  Date_now : Z;
  (** [mkdirSync(path)] throws *)
  mkdirFailure : string -> option Value;
  (** [spawn(command, { shell: true })], or attaching the stream handlers
      to the child it returns, throws synchronously *)
  spawnFailure : string -> option Value;
  (** what the child started by [command] has done to the file system by
      the time the synchronous code looks at it again; the child runs
      concurrently, so this may be nothing at all *)
  childProgress : string -> gset string -> gset string
}.

Inductive Event :=
| ConsoleLog (v : Value)
| HttpGet (options : RequestOptions)
| Mkdir (path : string)
| Spawn (cliCommand : string)
| UncaughtException (v : Value)
| ProcessExit.

(** The paths that exist and what the program has done so far.  A path is
    the string the program passes to [existsSync], [mkdirSync] or the
    shell; another spelling of the same directory (a trailing slash, a
    [.] segment) is another path here. *)
Record World := { fs : gset string; trace : list Event }.

Definition emit (e : Event) (w : World) : World :=
  {| fs := fs w; trace := trace w ++ [e] |}.

(** ** Computations: state, exceptions and process termination *)

Inductive Completion (A : Type) :=
| Normal (a : A)
| Throw (v : Value)
| Halt.
Arguments Normal {A} a.
Arguments Throw {A} v.
Arguments Halt {A}.

Definition JS (A : Type) : Type := World -> Completion A * World.

Definition ret {A} (a : A) : JS A := fun w => (Normal a, w).

Definition bind {A B} (m : JS A) (k : A -> JS B) : JS B :=
  fun w =>
    match m w with
    | (Normal a, w') => k a w'
    | (Throw v, w') => (Throw v, w')
    | (Halt, w') => (Halt, w')
    end.

Definition throw {A} (v : Value) : JS A := fun w => (Throw v, w).

(** [try { m } catch (err) { handler(err) }] *)
Definition tryCatch {A} (m : JS A) (handler : Value -> JS A) : JS A :=
  fun w =>
    match m w with
    | (Throw v, w') => handler v w'
    | r => r
    end.

Notation "x <- m ;; k" := (bind m (fun x => k))
  (at level 100, m at next level, k at level 200, right associativity,
   only parsing).
Notation "m ;; k" := (bind m (fun _ => k))
  (at level 100, k at level 200, right associativity, only parsing).

Definition console_log (v : Value) : JS unit :=
  fun w => (Normal tt, emit (ConsoleLog v) w).

(** [process.exit()] *)
Definition process_exit {A} : JS A :=
  fun w => (Halt, emit ProcessExit w).

(** An exception nobody catches (thrown inside an event handler, or an
    ['error'] event without a listener) ends the process. *)
Definition uncaught {A} (v : Value) : JS A :=
  fun w => (Halt, emit (UncaughtException v) w).

Definition existsSync (path : string) : JS bool :=
  fun w => (Normal (bool_decide (path ∈ fs w)), w).

Definition mkdirSync (host : Host) (path : string) : JS unit :=
  fun w =>
    match mkdirFailure host path with
    | Some v => (Throw v, w)
    | None => (Normal tt, {| fs := {[path]} ∪ fs w; trace := trace w ++ [Mkdir path] |})
    end.

Definition spawn (host : Host) (command : string) : JS unit :=
  fun w =>
    match spawnFailure host command with
    | Some v => (Throw v, w)
    | None => (Normal tt, {| fs := childProgress host command (fs w);
                             trace := trace w ++ [Spawn command] |})
    end.

(** [array.forEach(body)] *)
Fixpoint forEach {A} (array : list A) (body : A -> JS unit) : JS unit :=
  match array with
  | [] => ret tt
  | x :: rest => body x ;; forEach rest body
  end.

(** [submission.user.login]: reading [login] of an absent [user] throws. *)
Definition user_login (submission : GithubPR) : JS string :=
  match user submission with
  | Some u => ret (login u)
  | None => throw (TypeError "Cannot read property 'login' of undefined")
  end.

(** ** Repository materializer *)

Definition spawnProcess (host : Host) (repoName repoPath : string)
    (studentName : PropertyValue) (hostName : string) : JS unit :=
  let cliCommand :=
    "git clone git@" +:+ hostName +:+ ":" +:+ repoPath +:+ ".git "
      +:+ repoName +:+ "/" +:+ toString studentName in
  (* the ['data'] handlers of the child's streams run later, outside this
     synchronous call *)
  spawn host cliCommand.

(** The callback of [submissions.forEach]. *)
Definition cloneSubmission (host : Host) (repoName hostName : string)
    (studentLookup : gmap string string) (submission : GithubPR) : JS unit :=
  let repoPath := full_name (repo (base submission)) in
  login <- user_login submission ;;
  let studentName := getProperty login studentLookup in
  tryCatch
    (present <- existsSync (repoName +:+ "/" +:+ toString studentName) ;;
     if negb present
     then spawnProcess host repoName repoPath studentName hostName
     else console_log
            (Str ("Folder already exists for " +:+ toString studentName
                    +:+ ". Skipping...")))
    (fun err => console_log err).

Definition cloneRepositories (host : Host) (repoName hostName : string)
    (submissions : list GithubPR) (students : list Student) : JS unit :=
  let studentLookup := buildStudentLookup students in
  present <- existsSync repoName ;;
  (if negb present then mkdirSync host repoName else ret tt) ;;
  forEach submissions (cloneSubmission host repoName hostName studentLookup).

(** ** Gap reporter *)

(** [submissions.map(submission => submission.user.login)] *)
Fixpoint mapLogins (submissions : list GithubPR) : JS (list string) :=
  match submissions with
  | [] => ret []
  | submission :: rest =>
      l <- user_login submission ;;
      ls <- mapLogins rest ;;
      ret (l :: ls)
  end.

(** [githubUsernames.includes(s)] *)
Definition includes (githubUsernames : list string) (s : string) : bool :=
  existsb (String.eqb s) githubUsernames.

Definition logMissingSubmissions (submissions : list GithubPR)
    (students : list Student) : JS unit :=
  if negb (length submissions =? length students)%nat
  then
    githubUsernames <- mapLogins submissions ;;
    let difference :=
      List.filter (fun student => negb (includes githubUsernames (username student)))
                  students in
    let names :=
      fold_left (fun names student => names +:+ (name student +:+ " "))
                difference "" in
    console_log (Str ("Missing submissions from: " +:+ names))
  else ret tt.

(** ** Token expiry

    JavaScript numbers are IEEE 754 doubles. *)

Definition prec : Z := 53.
Definition emax : Z := 1024.

Definition NaN : spec_float := S754_nan.

(** The double nearest to an integer. *)
Definition ofZ (z : Z) : spec_float := binary_normalize prec emax z 0 false.

Definition Math_floor (x : spec_float) : spec_float :=
  match x with
  | S754_finite s m e => ofZ (Z.shiftl (cond_Zopp s (Zpos m)) e)
  | _ => x
  end.

(** [new Date(value).getTime()]: [new Date(undefined)] is an invalid
    date, and so is the date of a string that does not parse. *)
Definition Date_getTime (host : Host) (value : option string) : spec_float :=
  match value with
  | None => NaN
  | Some s =>
      match Date_parse host s with
      | Some t => ofZ t
      | None => NaN
      end
  end.

Definition daysUntil (host : Host) (tokenExpirationDate : option string)
  : spec_float :=
  let milliseconds :=
    SFsub prec emax (Date_getTime host tokenExpirationDate) (ofZ (Date_now host)) in
  let div := SFdiv prec emax in
  Math_floor (div (div (div (div milliseconds (ofZ 1000)) (ofZ 60)) (ofZ 60)) (ofZ 24)).

Definition notifyIfTokenExpiresSoon (host : Host)
    (tokenExpirationDate : option string) : JS unit :=
  let days := daysUntil host tokenExpirationDate in
  if SFltb days (ofZ 7)
  then console_log
         (Str "Heads up, your Personal Access Token is expiring in < 1 week")
  else ret tt.

(** ** Pull-request fetcher *)

Definition newline : string := String (ascii_of_nat 10) "".

Module config.
Record t := {
  hostName : string;
  username : string;
  githubToken : string;
  orgName : string;
  students : list Student
}.
End config.

(** ['message' in response]: [None] when the operator throws.  An array
    has its indices, [length] and what [Array.prototype] and
    [Object.prototype] provide, none of them named [message]; the operator
    throws a [TypeError] on a primitive. *)
Definition messageIn (response : Parsed) : option bool :=
  match response with
  | ParsedArray _ => Some false
  | ParsedObject keys =>
      Some (bool_decide ("message" ∈ keys)
            || bool_decide ("message" ∈ ObjectPrototypeKeys))
  | ParsedPrimitive => None
  end.

(** The ['end'] handler.  [reject] makes the awaiting caller throw the
    reason; an exception of the handler itself is caught by nobody. *)
Definition onEnd (host : Host) (orgName repoName body : string) : JS Parsed :=
  match JSON_parse host body with
  | None => uncaught (Err "SyntaxError" "Unexpected token in JSON")
  | Some response =>
      match messageIn response with
      | Some true =>
          throw (Str ("Warning: No repository found for: "
                        +:+ orgName +:+ "/" +:+ repoName))
      | Some false => ret response
      | None =>
          uncaught (TypeError "Cannot use 'in' operator to search for 'message'")
      end
  end.

(** The [options] of the request. *)
Definition xhrOptions (cfgUsername : string)
    (orgName repoName hostName githubToken : string) : RequestOptions :=
  {| hostname := "api." +:+ hostName;
     path := "/repos/" +:+ orgName +:+ "/" +:+ repoName +:+ "/pulls";
     method := "GET";
     headers := [ ("User-Agent", cfgUsername);
                  ("Authorization", "token " +:+ githubToken) ] |}.

Definition xhr (host : Host) (cfgUsername : string)
    (orgName repoName hostName githubToken : string) : JS Parsed :=
  let options := xhrOptions cfgUsername orgName repoName hostName githubToken in
  (fun w => (Normal tt, emit (HttpGet options) w)) ;;
  match exchange host options with
  | RequestFailed err => uncaught err
  | Responded statusCode tokenExpirationDate outcome =>
      notifyIfTokenExpiresSoon host tokenExpirationDate ;;
      match outcome with
      | Ended data =>
          let body := fold_left String.append data "" in
          onEnd host orgName repoName body
      | Errored err =>
          throw (Str ("Failed XHR, status code: " +:+ pretty statusCode
                        +:+ " " +:+ newline +:+ " " +:+ err))
      end
  end.

(** ** Entry point *)

Definition main (host : Host) (cfg : config.t) (argv : list string) : JS unit :=
  let repoName := argv !! CliArgs.RepoName in
  let validation := validateRepoName repoName in
  match error validation with
  | Some e => console_log (Str e) ;; process_exit
  | None => ret tt
  end ;;
  let restOfTheArgs := drop (CliArgs.RepoName + 1) argv in
  let flags := parseFlags restOfTheArgs in
  match repoName with
  | None => ret tt (* not reached: a missing name fails the validation *)
  | Some repoName =>
      tryCatch
        (pullRequests <- xhr host (config.username cfg) (config.orgName cfg)
                           repoName (config.hostName cfg) (config.githubToken cfg) ;;
         match pullRequests with
         | ParsedArray pullRequests =>
             let studentSubmissions :=
               filterStudentsPullRequests pullRequests (config.students cfg) in
             cloneRepositories host repoName (config.hostName cfg)
               studentSubmissions (config.students cfg) ;;
             logMissingSubmissions studentSubmissions (config.students cfg)
         | _ => throw (TypeError "pullRequests is not iterable")
         end)
        (fun err => console_log err ;; process_exit)
  end.

(** ** Vocabulary of the statements *)

(** The head branch is exactly [main] or exactly [master]. *)
Definition isDefaultBranch (pullRequest : GithubPR) : bool :=
  match head pullRequest with
  | Some h => String.eqb (ref h) "main" || String.eqb (ref h) "master"
  | None => false
  end.

Definition rosterUsernames (students : list Student) : list string :=
  map username students.

(** The display name the roster gives a username: that of the last
    student listed with it. *)
Definition rosterName (students : list Student) (u : string) : option string :=
  name <$> List.find (fun student => String.eqb (username student) u) (rev students).

(** What the materializer takes as the student's name of a submission
    that carries its author. *)
Definition studentNameOf (students : list Student) (submission : GithubPR)
  : PropertyValue :=
  getProperty (resolvedUsername submission) (buildStudentLookup students).

Definition destination (repoName : string) (students : list Student)
    (submission : GithubPR) : string :=
  repoName +:+ "/" +:+ toString (studentNameOf students submission).

Definition cloneCommand (repoName hostName : string) (students : list Student)
    (submission : GithubPR) : string :=
  "git clone git@" +:+ hostName +:+ ":" +:+ full_name (repo (base submission))
    +:+ ".git " +:+ destination repoName students submission.

Definition skipNotice (students : list Student) (submission : GithubPR) : Value :=
  Str ("Folder already exists for "
         +:+ toString (studentNameOf students submission) +:+ ". Skipping...").

(** The commands of the clone subprocesses in a trace, oldest first. *)
Definition spawnedCommands (t : list Event) : list string :=
  flat_map (fun e => match e with Spawn c => [c] | _ => [] end) t.

(** The one thing the materializer does for a submission it processes:
    start its clone, print the skip notice, or print the error that
    starting the clone threw. *)
Definition Processed (host : Host) (repoName hostName : string)
    (students : list Student) (submission : GithubPR) (e : Event) : Prop :=
  e = Spawn (cloneCommand repoName hostName students submission)
  \/ e = ConsoleLog (skipNotice students submission)
  \/ exists v,
       spawnFailure host (cloneCommand repoName hostName students submission) = Some v
       /\ e = ConsoleLog v.



(** A computation that only ever adds to the trace. *)
Definition Appends {A} (m : JS A) : Prop :=
  forall w, exists l, trace (snd (m w)) = trace w ++ l.

(** A computation whose first addition to the trace is [e]. *)
Definition StartsWith {A} (e : Event) (m : JS A) : Prop :=
  forall w, exists l, trace (snd (m w)) = trace w ++ e :: l.

(** The students whose username is not among [authors], in roster order. *)
Definition missingStudents (authors : list string) (students : list Student)
  : list Student :=
  List.filter (fun student => negb (bool_decide (username student ∈ authors)))
              students.

(** The missing-submissions line: every name followed by one space. *)
Definition missingLine (missing : list Student) : string :=
  "Missing submissions from: "
    +:+ fold_right (fun student rest => name student +:+ " " +:+ rest) "" missing.

(** ** More vocabulary *)

(** Kinds of events. *)
Definition isRequest (e : Event) : bool :=
  match e with HttpGet _ => true | _ => false end.

Definition touchesDisk (e : Event) : bool :=
  match e with Mkdir _ | Spawn _ => true | _ => false end.

Definition isSpawnOrLog (e : Event) : bool :=
  match e with Spawn _ | ConsoleLog _ => true | _ => false end.

Definition endsProcess (e : Event) : bool :=
  match e with ProcessExit | UncaughtException _ => true | _ => false end.

(** A computation all of whose additions to the trace satisfy [P]. *)
Definition Emits {A} (P : Event -> bool) (m : JS A) : Prop :=
  forall w, exists l, trace (snd (m w)) = trace w ++ l /\ forallb P l = true.

(** A computation that leaves the file system as it found it. *)
Definition KeepsDisk {A} (m : JS A) : Prop :=
  forall w, fs (snd (m w)) = fs w.

Definition tokenWarning : Value :=
  Str "Heads up, your Personal Access Token is expiring in < 1 week".

(** The roster students none of whose pull requests in the list comes
    from [main] or [master], in roster order. *)
Definition studentsWithoutSubmission (pullRequests : list GithubPR)
    (students : list Student) : list Student :=
  List.filter
    (fun student =>
       negb (existsb (fun pullRequest =>
                        isDefaultBranch pullRequest
                        && String.eqb (resolvedUsername pullRequest)
                                      (username student))
                     pullRequests))
    students.

(** What the directory step of the materializer adds to the trace. *)
Definition directoryEvents (host : Host) (repoName : string) (w : World)
  : list Event :=
  if bool_decide (repoName ∈ fs w) then []
  else match mkdirFailure host repoName with
       | None => [Mkdir repoName]
       | Some _ => []
       end.

(** What the token check adds to the trace. *)
Definition warningEvents (host : Host) (tokenExpirationDate : option string)
  : list Event :=
  if SFltb (daysUntil host tokenExpirationDate) (ofZ 7)
  then [ConsoleLog tokenWarning]
  else [].

(** [catch(err) { console.log(err); process.exit() }] of [main]. *)
Definition logAndExit (err : Value) : JS unit :=
  console_log err ;; process_exit.

(** The world in which [xhr] looks at the outcome of a response: the
    request is recorded and the token check has run. *)
Definition afterHeaders (host : Host) (options : RequestOptions)
    (tokenExpirationDate : option string) (w : World) : World :=
  {| fs := fs w;
     trace := trace w ++ HttpGet options :: warningEvents host tokenExpirationDate |}.

(** ** Sample inputs *)

Module Samples.

Definition pr (author : option string) (branch repoFullName : string) : GithubPR :=
  {| user := (fun l => {| login := l |}) <$> author;
     head := Some {| ref := branch |};
     base := {| repo := {| full_name := repoFullName |} |} |}.

Definition alice : Student := {| name := "Alice"; username := "a1" |}.
Definition bob : Student := {| name := "Bob"; username := "b1" |}.
Definition roster : list Student := [alice; bob].

(** Rosters with a username that is no account name. *)
Definition ghost : Student := {| name := "Ghost"; username := "no user found" |}.
Definition eve : Student := {| name := "Eve"; username := "__proto__" |}.

Definition alices : GithubPR := pr (Some "a1") "main" "org/hw1".
Definition alicesSecond : GithubPR := pr (Some "a1") "master" "org/hw1".
Definition bobs : GithubPR := pr (Some "b1") "master" "org/hw1".
Definition anonymous : GithubPR := pr None "main" "org/hw1".
Definition stranger : GithubPR := pr (Some "constructor") "main" "org/hw1".
Definition eves : GithubPR := pr (Some "__proto__") "main" "org/hw1".

Definition emptyWorld : World := {| fs := ∅; trace := [] |}.

(** The disk after an earlier run that cloned Bob only, and after one
    that cloned both. *)
Definition bobCloned : World :=
  {| fs := {["hw1"; "hw1/Bob"]}; trace := [] |}.

(** A platform on which nothing fails, the API answers with [items], no
    expiry header is sent and no child has touched the disk yet when the
    program looks again. *)
Definition calmHost (items : list GithubPR) : Host :=
  {| exchange := fun _ => Responded 200 None (Ended ["[...]"]);
     JSON_parse := fun _ => Some (ParsedArray items);
     Date_parse := fun _ => None;
     Date_now := 1700000000000;
     mkdirFailure := fun _ => None;
     spawnFailure := fun _ => None;
     childProgress := fun _ paths => paths |}.

(** A platform on which Alice's clone has made its folder before the
    program looks again. *)
Definition eagerHost (items : list GithubPR) : Host :=
  {| exchange := exchange (calmHost items);
     JSON_parse := JSON_parse (calmHost items);
     Date_parse := Date_parse (calmHost items);
     Date_now := Date_now (calmHost items);
     mkdirFailure := fun _ => None;
     spawnFailure := fun _ => None;
     childProgress := fun command paths =>
       if String.eqb command "git clone git@github.com:org/hw1.git hw1/Alice"
       then {["hw1/Alice"]} ∪ paths
       else paths |}.

(** The API answers [404] with an error payload. *)
Definition errorHost : Host :=
  {| exchange := fun _ => Responded 404 None (Ended ["{ message: Not Found }"]);
     JSON_parse := fun _ => Some (ParsedObject ["message"; "documentation_url"]);
     Date_parse := fun _ => None;
     Date_now := 1700000000000;
     mkdirFailure := fun _ => None;
     spawnFailure := fun _ => None;
     childProgress := fun _ paths => paths |}.


(** The response carries an expiry date [days] days and one millisecond
    short of a further day after now. *)
Definition expiringHost (days : Z) : Host :=
  {| exchange := fun _ => Responded 200 (Some "expiry") (Ended ["[]"]);
     JSON_parse := fun _ => Some (ParsedArray []);
     Date_parse := fun _ => Some (1700000000000 + days * 86400000 + 86399999)%Z;
     Date_now := 1700000000000;
     mkdirFailure := fun _ => None;
     spawnFailure := fun _ => None;
     childProgress := fun _ paths => paths |}.

Definition cfg : config.t :=
  {| config.hostName := "github.com";
     config.username := "instructor";
     config.githubToken := "token";
     config.orgName := "org";
     config.students := roster |}.

(** A configuration whose roster lists the username [no user found]. *)
Definition ghostCfg : config.t :=
  {| config.hostName := "github.com";
     config.username := "instructor";
     config.githubToken := "token";
     config.orgName := "org";
     config.students := [ghost; alice] |}.

End Samples.

(** ** More sample inputs *)

Module MoreSamples.

(** The roster of [Samples.roster] written differently: other display
    names, another order, an entry twice. *)
Definition rosterRewritten : list Student :=
  [ {| name := "Robert"; username := "b1" |};
    {| name := "Alicia"; username := "a1" |};
    {| name := "Bob"; username := "b1" |} ].

(** Two students who share a display name. *)
Definition sam1 : Student := {| name := "Sam"; username := "s1" |}.
Definition sam2 : Student := {| name := "Sam"; username := "s2" |}.
Definition sams1 : GithubPR := Samples.pr (Some "s1") "main" "org/hw1".
Definition sams2 : GithubPR := Samples.pr (Some "s2") "main" "org/hw1".

(** A pull request by somebody the roster does not know. *)
Definition outsiders : GithubPR := Samples.pr (Some "zed") "main" "org/hw1".

(** A pull request without [head]. *)
Definition headless : GithubPR :=
  {| user := Some {| login := "a1" |};
     head := None;
     base := {| repo := {| full_name := "org/hw1" |} |} |}.

End MoreSamples.

Module FailingHosts.

(** The body stream of the response breaks. *)
Definition brokenStream : Host :=
  {| exchange := fun _ => Responded 502 None (Errored "Error: aborted");
     JSON_parse := fun _ => None;
     Date_parse := fun _ => None;
     Date_now := 1700000000000;
     mkdirFailure := fun _ => None;
     spawnFailure := fun _ => None;
     childProgress := fun _ paths => paths |}.

(** The body is an HTML page, no JSON. *)
Definition htmlBody : Host :=
  {| exchange := fun _ => Responded 200 None (Ended ["<html>"; "</html>"]);
     JSON_parse := fun _ => None;
     Date_parse := fun _ => None;
     Date_now := 1700000000000;
     mkdirFailure := fun _ => None;
     spawnFailure := fun _ => None;
     childProgress := fun _ paths => paths |}.

(** The body is [null]. *)
Definition nullBody : Host :=
  {| exchange := fun _ => Responded 200 None (Ended ["null"]);
     JSON_parse := fun _ => Some ParsedPrimitive;
     Date_parse := fun _ => None;
     Date_now := 1700000000000;
     mkdirFailure := fun _ => None;
     spawnFailure := fun _ => None;
     childProgress := fun _ paths => paths |}.

(** The body is an object without [message]. *)
Definition objectBody : Host :=
  {| exchange := fun _ => Responded 200 None (Ended ["{ total: 0 }"]);
     JSON_parse := fun _ => Some (ParsedObject ["total"]);
     Date_parse := fun _ => None;
     Date_now := 1700000000000;
     mkdirFailure := fun _ => None;
     spawnFailure := fun _ => None;
     childProgress := fun _ paths => paths |}.

(** The target directory cannot be created. *)
Definition readOnlyDisk (items : list GithubPR) : Host :=
  {| exchange := fun _ => Responded 200 None (Ended ["[...]"]);
     JSON_parse := fun _ => Some (ParsedArray items);
     Date_parse := fun _ => None;
     Date_now := 1700000000000;
     mkdirFailure := fun _ => Some (Err "Error" "EACCES: permission denied, mkdir");
     spawnFailure := fun _ => None;
     childProgress := fun _ paths => paths |}.

End FailingHosts.

(** ** Regular expressions: the matcher is correct *)

Module RegExpFacts.
Import RegExp.

Lemma append_nil_r (s : string) : s +:+ "" = s.
Proof. induction s as [|c s IH]; simpl; [reflexivity | now rewrite IH]. Qed.

Lemma append_assoc (s1 s2 s3 : string) : (s1 +:+ s2) +:+ s3 = s1 +:+ (s2 +:+ s3).
Proof. induction s1 as [|c s1 IH]; simpl; [reflexivity | now rewrite IH]. Qed.

Lemma append_eq_nil (s1 s2 : string) : s1 +:+ s2 = "" -> s1 = "" /\ s2 = "".
Proof. destruct s1; simpl; [auto | discriminate]. Qed.

Lemma nullable_Matches (r : t) : nullable r = true <-> Matches r "".
Proof.
  split.
  - induction r as [| |p|r1 IH1 r2 IH2|r1 IH1 r2 IH2|r IH]; simpl; intros H.
    + discriminate.
    + constructor.
    + discriminate.
    + apply andb_true_iff in H as [H1 H2].
      change "" with ("" +:+ ""). constructor; auto.
    + apply orb_true_iff in H as [H|H]; [apply MAltL | apply MAltR]; auto.
    + constructor.
  - intros H. remember "" as s eqn:Es.
    induction H as [|p c Hp|r1 r2 s1 s2 H1 IH1 H2 IH2|r1 r2 s H IH|r1 r2 s H IH
                    |r|r s1 s2 H1 IH1 H2 IH2]; simpl; try reflexivity.
    + discriminate.
    + apply append_eq_nil in Es as [-> ->]. now rewrite IH1, IH2.
    + now rewrite IH.
    + rewrite IH by assumption. apply orb_true_r.
Qed.

Lemma deriv_sound (c : ascii) (r : t) :
  forall s, Matches (deriv c r) s -> Matches r (String c s).
Proof.
  induction r as [| |p|r1 IH1 r2 IH2|r1 IH1 r2 IH2|r IH]; simpl; intros s H.
  - inversion H.
  - inversion H.
  - destruct (p c) eqn:Hp; inversion H; subst. now constructor.
  - assert (Hseq : forall u, Matches (Seq (deriv c r1) r2) u ->
                             Matches (Seq r1 r2) (String c u)).
    { intros u Hu. inversion Hu; subst.
      change (String c (s1 +:+ s2)) with (String c s1 +:+ s2).
      constructor; auto. }
    destruct (nullable r1) eqn:Hn.
    + inversion H; subst.
      * now apply Hseq.
      * change (String c s) with ("" +:+ String c s).
        constructor; [now apply nullable_Matches | auto].
    + now apply Hseq.
  - inversion H; subst; [apply MAltL | apply MAltR]; auto.
  - inversion H; subst.
    change (String c (s1 +:+ s2)) with (String c s1 +:+ s2).
    constructor; auto.
Qed.

Lemma deriv_complete (c : ascii) (r : t) (cs : string) :
  Matches r cs -> forall s, cs = String c s -> Matches (deriv c r) s.
Proof.
  induction 1 as [|p c' Hp|r1 r2 s1 s2 H1 IH1 H2 IH2|r1 r2 u H IH|r1 r2 u H IH
                  |r|r s1 s2 H1 IH1 H2 IH2]; intros s Es; simpl.
  - discriminate.
  - injection Es as -> <-. rewrite Hp. constructor.
  - destruct s1 as [|c1 s1]; simpl in Es.
    + apply nullable_Matches in H1. rewrite H1.
      apply MAltR. now apply IH2.
    + injection Es as -> <-.
      assert (Hl : Matches (Seq (deriv c r1) r2) (s1 +:+ s2))
        by (constructor; auto).
      destruct (nullable r1); [now apply MAltL | assumption].
  - apply MAltL. now apply IH.
  - apply MAltR. now apply IH.
  - discriminate.
  - destruct s1 as [|c1 s1]; simpl in Es.
    + now apply IH2.
    + injection Es as -> <-. constructor; auto.
Qed.

Lemma deriv_Matches (c : ascii) (r : t) (s : string) :
  Matches (deriv c r) s <-> Matches r (String c s).
Proof.
  split; [apply deriv_sound | intros H; now apply (deriv_complete c r (String c s))].
Qed.

(** [test] finds exactly the subjects with a prefix in the language. *)
Lemma test_spec (r : t) (s : string) :
  test r s = true <-> exists p q, s = p +:+ q /\ Matches r p.
Proof.
  revert r. induction s as [|c s IH]; intros r; simpl.
  - rewrite orb_false_r, nullable_Matches. split.
    + intros H. now exists "", "".
    + intros (p & q & E & H). symmetry in E.
      apply append_eq_nil in E as [-> _]. assumption.
  - rewrite orb_true_iff, nullable_Matches, IH. split.
    + intros [H | (p & q & -> & H)].
      * now exists "", (String c s).
      * exists (String c p), q. split; [reflexivity | now apply deriv_Matches].
    + intros (p & q & E & H). destruct p as [|c' p]; simpl in E.
      * now left.
      * injection E as <- ->. right. exists p, q.
        split; [reflexivity | now apply deriv_Matches].
Qed.

Lemma test_Never (s : string) : test Never s = false.
Proof. induction s; simpl; auto. Qed.

Lemma test_nullable (r : t) (s : string) : nullable r = true -> test r s = true.
Proof. intros H. destruct s; simpl; now rewrite H. Qed.

End RegExpFacts.

(** ** Command line *)

Section CommandLine.
Import RegExp RegExpFacts.

Lemma isHyphen_spec (c : ascii) : isHyphen c = true <-> c = "-"%char.
Proof.
  unfold isHyphen. rewrite Nat.eqb_eq. split.
  - intros H. rewrite <- (ascii_nat_embedding c), H. reflexivity.
  - intros ->. reflexivity.
Qed.

(** [/^\w/] accepts exactly the strings whose first character is a word
    character. *)
Lemma startsWithWord_spec (s : string) :
  test startsWithWord s = true <->
  exists c rest, s = String c rest /\ isWordChar c = true.
Proof.
  unfold startsWithWord. rewrite test_spec. split.
  - intros (p & q & -> & H). inversion H; subst. simpl. eauto.
  - intros (c & rest & -> & H). exists (String c ""), rest.
    split; [reflexivity | now constructor].
Qed.

(** [/^--[\w-]+/] accepts exactly the strings that start with two hyphens
    followed by a word character or a hyphen. *)
Lemma flagPattern_spec (s : string) :
  test flagPattern s = true <->
  exists c rest,
    s = String "-" (String "-" (String c rest))
    /\ (isWordChar c || isHyphen c) = true.
Proof.
  unfold flagPattern, Plus. rewrite test_spec. split.
  - intros (p & q & -> & H).
    inversion H as [| |? ? s1 p1 H1 Hp1| | | |]; subst.
    inversion H1 as [|? c1 Hc1| | | | |]; subst.
    inversion Hp1 as [| |? ? s2 p2 H2 Hp2| | | |]; subst.
    inversion H2 as [|? c2 Hc2| | | | |]; subst.
    inversion Hp2 as [| |? ? s3 p3 H3 Hp3| | | |]; subst.
    inversion H3 as [|? c3 Hc3| | | | |]; subst.
    apply isHyphen_spec in Hc1 as ->. apply isHyphen_spec in Hc2 as ->.
    simpl. eauto.
  - intros (c & rest & -> & H).
    exists (String "-" (String "-" (String c ""))), rest.
    split; [reflexivity |].
    change (String "-" (String "-" (String c "")))
      with ("-" +:+ ("-" +:+ (String c "" +:+ ""))).
    repeat constructor; assumption.
Qed.

Lemma validateRepoName_error (repoName : option string) :
  (repoName = None
   \/ exists s, repoName = Some s /\ test startsWithWord s = false)
  <-> exists msg, error (validateRepoName repoName) = Some msg.
Proof.
  split.
  - intros [-> | (s & -> & H)]; simpl; [eauto |].
    destruct s; [eauto |]. rewrite H. simpl. eauto.
  - intros [msg H]. destruct repoName as [s|]; [right | now left].
    exists s. split; [reflexivity |].
    destruct s as [|c s]; [reflexivity |].
    unfold validateRepoName in H.
    destruct (test startsWithWord (String c s)); [discriminate | reflexivity].
Qed.

Lemma validateRepoName_ok (repoName : option string) :
  error (validateRepoName repoName) = None <->
  exists c rest, repoName = Some (String c rest) /\ isWordChar c = true.
Proof.
  split.
  - intros H. destruct repoName as [[|c s]|]; try discriminate.
    unfold validateRepoName in H.
    destruct (test startsWithWord (String c s)) eqn:E; [| discriminate].
    apply startsWithWord_spec in E as (c' & rest & [= <- <-] & Hc). eauto.
  - intros (c & rest & -> & Hc). unfold validateRepoName.
    assert (E : test startsWithWord (String c rest) = true)
      by (apply startsWithWord_spec; eauto).
    now rewrite E.
Qed.

End CommandLine.

(** C9. [main] hands [parseFlags] the arguments after the repository name,
    and [parseFlags] drops three more before it filters: what it returns
    are the tokens matching [/^--[\w-]+/] among the arguments from the
    fourth one after the repository name on, in order; the first three
    arguments after the repository name play no part in the result. *)
Theorem parseFlags_ignores_first_three (argv : list string) :
  let restOfTheArgs := drop (CliArgs.RepoName + 1) argv in
  parseFlags restOfTheArgs
    = List.filter (RegExp.test flagPattern) (drop 3 restOfTheArgs)
  /\ parseFlags restOfTheArgs
    = List.filter (RegExp.test flagPattern) (drop 6 argv)
  /\ (forall flag,
        In flag (parseFlags restOfTheArgs) <->
        In flag (drop 3 restOfTheArgs)
        /\ exists c rest,
             flag = String "-" (String "-" (String c rest))
             /\ (isWordChar c || isHyphen c) = true)
  /\ (forall first second third later,
        parseFlags (first :: second :: third :: later)
          = List.filter (RegExp.test flagPattern) later)
  /\ (length restOfTheArgs <= 3 -> parseFlags restOfTheArgs = []).
Proof.
  intros restOfTheArgs. unfold parseFlags, CliArgs.RepoName. simpl (2 + 1).
  split; [reflexivity |].
  split; [subst restOfTheArgs; now rewrite drop_drop |].
  split; [| split].
  - intros flag. rewrite filter_In, flagPattern_spec. reflexivity.
  - reflexivity.
  - intros H. rewrite drop_ge by exact H. reflexivity.
Qed.

Lemma parseFlags_ignores_first_three_witness :
  parseFlags (drop 3 ["node"; "cloneHw.js"; "hw1"; "--a"; "--b"; "--c"; "--force"; "x"; "--dry-run"])
  = ["--force"; "--dry-run"].
Proof.
  destruct (parseFlags_ignores_first_three
              ["node"; "cloneHw.js"; "hw1"; "--a"; "--b"; "--c"; "--force"; "x"; "--dry-run"])
    as (_ & H & _).
  exact (eq_trans H eq_refl).
Defined.

(** ** The roster lookup *)

Section RosterLookup.

Lemma buildStudentLookup_snoc (students : list Student) (s : Student) :
  buildStudentLookup (students ++ [s])
  = setProperty (username s) (name s) (buildStudentLookup students).
Proof. unfold buildStudentLookup. now rewrite fold_left_app. Qed.

Lemma rosterName_snoc (students : list Student) (s : Student) (u : string) :
  rosterName (students ++ [s]) u
  = if String.eqb (username s) u then Some (name s) else rosterName students u.
Proof.
  unfold rosterName. rewrite rev_app_distr. simpl.
  now destruct (String.eqb (username s) u).
Qed.

Lemma rosterName_is_Some (students : list Student) (u : string) :
  is_Some (rosterName students u) <-> u ∈ rosterUsernames students.
Proof.
  unfold rosterName, rosterUsernames. rewrite list_elem_of_In, in_map_iff.
  split.
  - intros [n H].
    destruct (List.find _ (rev students)) as [s|] eqn:E; [| discriminate].
    apply find_some in E as [Hin Heq]. apply String.eqb_eq in Heq.
    exists s. split; [assumption | now apply in_rev].
  - intros (s & Hu & Hin).
    destruct (List.find _ (rev students)) as [s'|] eqn:E; [now eexists |].
    apply in_rev in Hin. apply (find_none _ _ E s) in Hin.
    rewrite Hu, String.eqb_refl in Hin. discriminate.
Qed.

(** The own properties of [studentLookup] are the roster's usernames with
    their display names, except that a student called [__proto__] leaves
    no trace in it. *)
Lemma buildStudentLookup_lookup (students : list Student) (u : string) :
  buildStudentLookup students !! u
  = if decide (u = "__proto__") then None else rosterName students u.
Proof.
  induction students as [|s students IH] using rev_ind.
  - unfold buildStudentLookup, rosterName. simpl. rewrite lookup_empty.
    now destruct (decide _).
  - rewrite buildStudentLookup_snoc, rosterName_snoc. unfold setProperty.
    destruct (decide (username s = "__proto__")) as [Hp|Hp].
    + rewrite IH. destruct (decide (u = "__proto__")) as [->|Hu]; [reflexivity |].
      destruct (String.eqb_spec (username s) u); [congruence | reflexivity].
    + destruct (String.eqb_spec (username s) u) as [E|Hne].
      * rewrite E in Hp |- *. rewrite lookup_insert_eq.
        destruct (decide _); [contradiction | reflexivity].
      * now rewrite lookup_insert_ne.
Qed.

Lemma proto_is_inherited :
  bool_decide ("__proto__" ∈ ObjectPrototypeKeys) = true.
Proof. vm_compute. reflexivity. Qed.

(** [username in studentLookup] *)
Lemma hasProperty_buildStudentLookup (students : list Student) (u : string) :
  hasProperty u (buildStudentLookup students)
  = bool_decide (u ∈ rosterUsernames students)
    || bool_decide (u ∈ ObjectPrototypeKeys).
Proof.
  unfold hasProperty. rewrite buildStudentLookup_lookup.
  destruct (decide (u = "__proto__")) as [->|Hu].
  - rewrite proto_is_inherited, !orb_true_r. reflexivity.
  - f_equal. apply bool_decide_ext, rosterName_is_Some.
Qed.

(** [studentLookup[u]] *)
Lemma getProperty_roster (students : list Student) (u n : string) :
  u <> "__proto__" -> rosterName students u = Some n ->
  getProperty u (buildStudentLookup students) = OwnValue n.
Proof.
  intros Hu Hn. unfold getProperty. rewrite buildStudentLookup_lookup.
  destruct (decide _); [contradiction | now rewrite Hn].
Qed.

End RosterLookup.

(** ** Submission filter *)

Section Filter.

Lemma isDefaultBranch_spec (pullRequest : GithubPR) :
  isDefaultBranch pullRequest = true <->
  exists h, head pullRequest = Some h /\ (ref h = "main" \/ ref h = "master").
Proof.
  unfold isDefaultBranch. destruct (head pullRequest) as [h|].
  - rewrite orb_true_iff, !String.eqb_eq. split.
    + intros H. eauto.
    + intros (h' & [= <-] & H). exact H.
  - split; [discriminate | intros (h & H & _); discriminate].
Qed.

Lemma headRefIsNot_default (pullRequest : GithubPR) :
  headRefIsNot pullRequest "main" && headRefIsNot pullRequest "master"
  = negb (isDefaultBranch pullRequest).
Proof.
  unfold headRefIsNot, isDefaultBranch.
  destruct (head pullRequest); [now rewrite negb_orb | reflexivity].
Qed.

Lemma filterLoop_spec (studentLookup : gmap string string)
    (pullRequests submissions : list GithubPR) :
  filterLoop studentLookup pullRequests submissions
  = submissions
    ++ List.filter (fun pullRequest =>
                      isDefaultBranch pullRequest
                      && hasProperty (resolvedUsername pullRequest) studentLookup)
                   pullRequests.
Proof.
  revert submissions.
  induction pullRequests as [|pullRequest rest IH]; intros submissions; simpl.
  - now rewrite app_nil_r.
  - rewrite headRefIsNot_default.
    destruct (isDefaultBranch pullRequest); simpl; [| apply IH].
    destruct (hasProperty _ _); rewrite IH; [| reflexivity].
    now rewrite <- app_assoc.
Qed.

(** What the filter computes: the pull requests from [main] or [master]
    whose resolved author is a roster username or the name of a property
    that every plain object inherits, in the order of the input. *)
Lemma filterStudentsPullRequests_spec (pullRequests : list GithubPR)
    (students : list Student) :
  filterStudentsPullRequests pullRequests students
  = List.filter
      (fun pullRequest =>
         isDefaultBranch pullRequest
         && (bool_decide (resolvedUsername pullRequest ∈ rosterUsernames students)
             || bool_decide (resolvedUsername pullRequest ∈ ObjectPrototypeKeys)))
      pullRequests.
Proof.
  unfold filterStudentsPullRequests. rewrite filterLoop_spec. simpl.
  apply filter_ext. intros pullRequest.
  now rewrite hasProperty_buildStudentLookup.
Qed.

(** When no author is called like an inherited property, the filter keeps
    exactly the pull requests from [main] or [master] whose resolved
    author is a roster username. *)
Lemma filterStudentsPullRequests_ordinary_authors
    (pullRequests : list GithubPR) (students : list Student) :
  Forall (fun pullRequest => resolvedUsername pullRequest ∉ ObjectPrototypeKeys)
         pullRequests ->
  filterStudentsPullRequests pullRequests students
  = List.filter
      (fun pullRequest =>
         isDefaultBranch pullRequest
         && bool_decide (resolvedUsername pullRequest ∈ rosterUsernames students))
      pullRequests.
Proof.
  intros Hall. rewrite filterStudentsPullRequests_spec.
  induction Hall as [|pullRequest rest Hk _ IH]; [reflexivity |].
  simpl. rewrite IH, (bool_decide_eq_false_2 _ Hk), orb_false_r. reflexivity.
Qed.

(** A pull request on a default branch whose author is called like an
    inherited property passes, whatever the roster. *)
Lemma filter_keeps_inherited_names (students : list Student)
    (pullRequest : GithubPR) :
  isDefaultBranch pullRequest = true ->
  resolvedUsername pullRequest ∈ ObjectPrototypeKeys ->
  filterStudentsPullRequests [pullRequest] students = [pullRequest].
Proof.
  intros Hb Hk. rewrite filterStudentsPullRequests_spec. simpl.
  rewrite Hb, (bool_decide_eq_true_2 _ Hk), orb_true_r. reflexivity.
Qed.

End Filter.

(** C1 (the code departs from the claim).  With the roster Alice ([a1]) and
    Bob ([b1]), a pull request from [main] whose author is the account
    [constructor] is returned by the filter although [constructor] is no
    roster username: [username in studentLookup] also holds for the
    properties a plain object inherits. *)
Theorem filterStudentsPullRequests_keeps_constructor :
  resolvedUsername Samples.stranger = "constructor"
  /\ ("constructor" ∉ rosterUsernames Samples.roster)
  /\ isDefaultBranch Samples.stranger = true
  /\ filterStudentsPullRequests [Samples.stranger] Samples.roster
     = [Samples.stranger].
Proof.
  split; [reflexivity |]. split; [| split; reflexivity].
  unfold rosterUsernames. simpl. rewrite !elem_of_cons, elem_of_nil.
  intros [H | [H | H]]; [discriminate | discriminate | exact H].
Qed.

(** C4, as stated, fails: on a roster that lists the username
    [no user found], a pull request without an author passes the filter. *)
Lemma filter_excludes_absent_author_counterexample :
  ~ (forall (students : list Student) (pullRequests : list GithubPR)
            (pullRequest : GithubPR),
        user pullRequest = None ->
        ~ In pullRequest (filterStudentsPullRequests pullRequests students)).
Proof.
  intros H.
  apply (H [Samples.ghost] [Samples.anonymous] Samples.anonymous).
  - reflexivity.
  - vm_compute. now left.
Qed.

(** C4, amended.  On a roster in which no student has the username
    [no user found], a pull request whose author is absent is excluded by
    the filter.  And on every roster, with or without that username, a
    submission in the filter's output whose resolved author username is
    not the name of an inherited object property has a roster username as
    its author. *)
Theorem filter_output_authors (students : list Student)
    (pullRequests : list GithubPR) :
  (noUserFound ∉ rosterUsernames students ->
   forall pullRequest,
     user pullRequest = None ->
     ~ In pullRequest (filterStudentsPullRequests pullRequests students))
  /\ (forall submission,
        In submission (filterStudentsPullRequests pullRequests students) ->
        resolvedUsername submission ∉ ObjectPrototypeKeys ->
        resolvedUsername submission ∈ rosterUsernames students).
Proof.
  rewrite filterStudentsPullRequests_spec. split.
  - intros Hsentinel pullRequest Huser Hin. apply filter_In in Hin as [_ Hin].
    apply andb_true_iff in Hin as [_ Hin].
    unfold resolvedUsername in Hin. rewrite Huser in Hin.
    apply orb_true_iff in Hin as [Hin | Hin]; apply bool_decide_eq_true_1 in Hin.
    + contradiction.
    + revert Hin. vm_compute. intros Hin.
      repeat (apply elem_of_cons in Hin as [Hin | Hin]; [discriminate |]).
      now apply elem_of_nil in Hin.
  - intros submission Hin Hk. apply filter_In in Hin as [_ Hin].
    apply andb_true_iff in Hin as [_ Hin].
    apply orb_true_iff in Hin as [Hin | Hin]; apply bool_decide_eq_true_1 in Hin.
    + exact Hin.
    + contradiction.
Qed.

(** On the roster of Alice and Bob the pull request without author is
    dropped and Alice's is by a roster username; on the roster that lists
    [no user found] the pull request without author is kept, and the
    username it resolves to is a roster username. *)
Lemma filter_output_authors_witness :
  (noUserFound ∉ rosterUsernames Samples.roster)
  /\ ~ In Samples.anonymous
         (filterStudentsPullRequests
            [Samples.anonymous; Samples.alicesSecond]
            Samples.roster)
  /\ "a1" ∈ rosterUsernames Samples.roster
  /\ In Samples.anonymous
        (filterStudentsPullRequests
           [Samples.anonymous; Samples.alices]
           [Samples.ghost; Samples.alice])
  /\ resolvedUsername Samples.anonymous
     ∈ rosterUsernames [Samples.ghost; Samples.alice].
Proof.
  assert (Hsentinel : noUserFound ∉ rosterUsernames Samples.roster).
  { unfold rosterUsernames. simpl. rewrite !elem_of_cons, elem_of_nil.
    intros [H | [H | H]]; [discriminate | discriminate | exact H]. }
  assert (Hordinary : forall u : string,
             bool_decide (u ∈ ObjectPrototypeKeys) = false ->
             u ∉ ObjectPrototypeKeys)
    by (intros u; apply bool_decide_eq_false_1).
  destruct (filter_output_authors Samples.roster
              [Samples.anonymous; Samples.alicesSecond])
    as [Habsent Hroster].
  destruct (filter_output_authors [Samples.ghost; Samples.alice]
              [Samples.anonymous; Samples.alices])
    as [_ Hghost].
  assert (Hkept : In Samples.anonymous
                    (filterStudentsPullRequests
                       [Samples.anonymous; Samples.alices]
                       [Samples.ghost; Samples.alice]))
    by (vm_compute; now left).
  split; [exact Hsentinel |]. split; [| split; [| split]].
  - apply (Habsent Hsentinel). reflexivity.
  - apply (Hroster Samples.alicesSecond).
    + vm_compute. now left.
    + apply Hordinary. vm_compute. reflexivity.
  - exact Hkept.
  - apply (Hghost Samples.anonymous Hkept).
    apply Hordinary. vm_compute. reflexivity.
Defined.

(** ** Repository materializer *)

Section Materializer.

Variable host : Host.
Variables repoName hostName : string.
Variable students : list Student.

(** The callback of the loop, for this roster. *)
Local Abbreviation step :=
  (cloneSubmission host repoName hostName (buildStudentLookup students)).

Lemma spawnedCommands_app (t1 t2 : list Event) :
  spawnedCommands (t1 ++ t2) = spawnedCommands t1 ++ spawnedCommands t2.
Proof. apply flat_map_app. Qed.


(** A submission without its author: reading [submission.user.login]
    throws before the [try] block is entered. *)
Lemma cloneSubmission_absent (submission : GithubPR) (w : World) :
  user submission = None ->
  step submission w
  = (Throw (TypeError "Cannot read property 'login' of undefined"), w).
Proof.
  intros H. unfold cloneSubmission, bind, user_login. now rewrite H.
Qed.

(** With its author, the step is the guarded body for the destination and
    the command of the submission. *)
Lemma cloneSubmission_present (submission : GithubPR) (u : User) (w : World) :
  user submission = Some u ->
  step submission w
  = tryCatch
      (present <- existsSync (destination repoName students submission) ;;
       if negb present
       then spawn host (cloneCommand repoName hostName students submission)
       else console_log (skipNotice students submission))
      (fun err => console_log err) w.
Proof.
  intros H.
  unfold cloneSubmission, bind, user_login, spawnProcess, tryCatch,
    cloneCommand, destination, skipNotice, studentNameOf, resolvedUsername,
    existsSync, ret.
  rewrite H. reflexivity.
Qed.

Lemma cloneSubmission_skips (submission : GithubPR) (u : User) (w : World) :
  user submission = Some u ->
  destination repoName students submission ∈ fs w ->
  step submission w
  = (Normal tt, emit (ConsoleLog (skipNotice students submission)) w).
Proof.
  intros Hu Hd. rewrite (cloneSubmission_present _ _ _ Hu).
  unfold tryCatch, bind, existsSync. now rewrite (bool_decide_eq_true_2 _ Hd).
Qed.

(** Destination absent: the step is the attempt to start the clone, with
    its error printed if it throws. *)
Lemma cloneSubmission_attempts (submission : GithubPR) (u : User) (w : World) :
  user submission = Some u ->
  destination repoName students submission ∉ fs w ->
  step submission w
  = tryCatch (spawn host (cloneCommand repoName hostName students submission))
             (fun err => console_log err) w.
Proof.
  intros Hu Hd. rewrite (cloneSubmission_present _ _ _ Hu).
  unfold tryCatch, bind, existsSync. now rewrite (bool_decide_eq_false_2 _ Hd).
Qed.

Lemma cloneSubmission_spawns (submission : GithubPR) (u : User) (w : World) :
  user submission = Some u ->
  destination repoName students submission ∉ fs w ->
  spawnFailure host (cloneCommand repoName hostName students submission) = None ->
  step submission w
  = (Normal tt,
     {| fs := childProgress host
                (cloneCommand repoName hostName students submission) (fs w);
        trace := trace w
                   ++ [Spawn (cloneCommand repoName hostName students submission)] |}).
Proof.
  intros Hu Hd Hs. rewrite (cloneSubmission_attempts _ _ _ Hu Hd).
  unfold tryCatch, spawn. now rewrite Hs.
Qed.

Lemma cloneSubmission_logs (submission : GithubPR) (u : User) (w : World)
    (v : Value) :
  user submission = Some u ->
  destination repoName students submission ∉ fs w ->
  spawnFailure host (cloneCommand repoName hostName students submission) = Some v ->
  step submission w = (Normal tt, emit (ConsoleLog v) w).
Proof.
  intros Hu Hd Hs. rewrite (cloneSubmission_attempts _ _ _ Hu Hd).
  unfold tryCatch, spawn. now rewrite Hs.
Qed.

(** Every submission with its author is dealt with by exactly one event,
    and the step returns normally. *)
Lemma cloneSubmission_processed (submission : GithubPR) (w : World) :
  is_Some (user submission) ->
  exists e w',
    step submission w = (Normal tt, w')
    /\ trace w' = trace w ++ [e]
    /\ Processed host repoName hostName students submission e
    /\ (destination repoName students submission ∈ fs w -> fs w' = fs w /\
        e = ConsoleLog (skipNotice students submission)).
Proof.
  intros [u Hu].
  destruct (decide (destination repoName students submission ∈ fs w)) as [Hd|Hd].
  - eexists _, _. split; [apply (cloneSubmission_skips _ _ _ Hu Hd) |].
    simpl. repeat split; unfold Processed; auto.
  - destruct (spawnFailure host (cloneCommand repoName hostName students submission))
      as [v|] eqn:Hs.
    + eexists _, _. split; [apply (cloneSubmission_logs _ _ _ _ Hu Hd Hs) |].
      simpl. repeat split; unfold Processed; eauto; contradiction.
    + eexists _, _. split; [apply (cloneSubmission_spawns _ _ _ Hu Hd Hs) |].
      simpl. repeat split; unfold Processed; eauto; contradiction.
Qed.

(** The loop over submissions that all carry their author runs to its end. *)
Lemma forEach_processes_all (submissions : list GithubPR) (w : World) :
  Forall (fun submission => is_Some (user submission)) submissions ->
  exists w' events,
    forEach submissions step w = (Normal tt, w')
    /\ trace w' = trace w ++ events
    /\ Forall2 (Processed host repoName hostName students) submissions events.
Proof.
  intros Hall. revert w.
  induction Hall as [|submission rest Hu _ IH]; intros w.
  - exists w, []. simpl. rewrite app_nil_r. repeat split. constructor.
  - destruct (cloneSubmission_processed submission w Hu)
      as (e & w1 & Hstep & Htrace & Hp & _).
    destruct (IH w1) as (w' & events & Hrest & Htrace' & Hps).
    exists w', (e :: events). simpl. unfold bind. rewrite Hstep, Hrest.
    split; [reflexivity |]. split.
    + rewrite Htrace', Htrace, <- app_assoc. reflexivity.
    + now constructor.
Qed.



(** Were every clone to have created its destination by the time the
    loop goes on (and nothing to disappear from the disk), no destination
    would be cloned twice, whatever the submissions. *)
Lemma forEach_eager_children (submissions : list GithubPR) (w : World)
    (c : Completion unit) (w' : World) :
  (forall command paths, paths ⊆ childProgress host command paths) ->
  (forall submission paths,
      destination repoName students submission
      ∈ childProgress host
          (cloneCommand repoName hostName students submission) paths) ->
  forEach submissions step w = (c, w') ->
  exists cloned,
    cloned `sublist_of` submissions
    /\ spawnedCommands (trace w')
       = spawnedCommands (trace w)
         ++ map (cloneCommand repoName hostName students) cloned
    /\ NoDup (map (destination repoName students) cloned)
    /\ (forall d, d ∈ map (destination repoName students) cloned -> d ∉ fs w).
Proof.
  intros Hgrow Heager. revert w.
  induction submissions as [|submission rest IH]; intros w Hrun.
  - injection Hrun as _ <-. exists []. simpl. rewrite app_nil_r.
    repeat split; [constructor | constructor |].
    intros d Hd. now apply elem_of_nil in Hd.
  - simpl in Hrun. unfold bind in Hrun.
    destruct (user submission) as [u|] eqn:Hu.
    + destruct (decide (destination repoName students submission ∈ fs w))
        as [Hd|Hd].
      * rewrite (cloneSubmission_skips _ _ _ Hu Hd) in Hrun.
        apply IH in Hrun as (cloned & Hsub & Hcmds & Hnodup & Hfresh).
        exists cloned. split; [now constructor |]. split; [| now split].
        rewrite Hcmds. simpl. rewrite spawnedCommands_app. simpl.
        now rewrite app_nil_r.
      * destruct (spawnFailure host
                    (cloneCommand repoName hostName students submission))
          as [v|] eqn:Hs.
        -- rewrite (cloneSubmission_logs _ _ _ _ Hu Hd Hs) in Hrun.
           apply IH in Hrun as (cloned & Hsub & Hcmds & Hnodup & Hfresh).
           exists cloned. split; [now constructor |]. split; [| now split].
           rewrite Hcmds. simpl. rewrite spawnedCommands_app. simpl.
           now rewrite app_nil_r.
        -- rewrite (cloneSubmission_spawns _ _ _ Hu Hd Hs) in Hrun.
           apply IH in Hrun as (cloned & Hsub & Hcmds & Hnodup & Hfresh).
           simpl in Hcmds, Hfresh.
           exists (submission :: cloned). split; [now constructor |].
           split; [| split].
           ++ rewrite Hcmds, spawnedCommands_app. simpl.
              now rewrite <- app_assoc.
           ++ simpl. apply NoDup_cons. split; [| exact Hnodup].
              intros Hin. apply (Hfresh _ Hin). apply Heager.
           ++ intros d Hin. simpl in Hin. apply elem_of_cons in Hin as [-> | Hin].
              ** exact Hd.
              ** intros Hdw. apply (Hfresh _ Hin). now apply Hgrow.
    + rewrite (cloneSubmission_absent _ _ Hu) in Hrun. injection Hrun as _ <-.
      exists []. simpl. rewrite app_nil_r.
      repeat split; [apply sublist_nil_l | constructor |].
      intros d Hd. now apply elem_of_nil in Hd.
Qed.

(** The loop returns normally only if every submission carries its
    author. *)
Lemma forEach_normal_authors (submissions : list GithubPR) (w w' : World) :
  forEach submissions step w = (Normal tt, w') ->
  exists authors,
    map user submissions = map (fun l => Some {| login := l |}) authors.
Proof.
  revert w. induction submissions as [|submission rest IH]; intros w Hrun.
  - now exists [].
  - simpl in Hrun. unfold bind in Hrun.
    destruct (user submission) as [[l]|] eqn:Hu.
    + destruct (cloneSubmission_processed submission w) as
        (e & w1 & Hstep & _); [now exists {| login := l |} |].
      rewrite Hstep in Hrun. apply IH in Hrun as [authors Hrest].
      exists (l :: authors). simpl. now rewrite Hu, Hrest.
    + rewrite (cloneSubmission_absent _ _ Hu) in Hrun. discriminate.
Qed.

(** The directory step of [cloneRepositories]. *)
Lemma cloneRepositories_unfold (submissions : list GithubPR) (w : World) :
  cloneRepositories host repoName hostName submissions students w
  = if bool_decide (repoName ∈ fs w)
    then forEach submissions step w
    else match mkdirFailure host repoName with
         | Some v => (Throw v, w)
         | None =>
             forEach submissions step
               {| fs := {[repoName]} ∪ fs w; trace := trace w ++ [Mkdir repoName] |}
         end.
Proof.
  unfold cloneRepositories, bind, existsSync, mkdirSync, ret.
  destruct (bool_decide (repoName ∈ fs w)); simpl; [reflexivity |].
  now destruct (mkdirFailure host repoName).
Qed.

(** [cloneRepositories] returns normally only if every submission carries
    its author: the gap reporter, which runs next, never sees one without. *)
Lemma cloneRepositories_normal_authors (submissions : list GithubPR)
    (w w' : World) :
  cloneRepositories host repoName hostName submissions students w
  = (Normal tt, w') ->
  exists authors,
    map user submissions = map (fun l => Some {| login := l |}) authors.
Proof.
  rewrite cloneRepositories_unfold.
  destruct (bool_decide (repoName ∈ fs w)).
  - apply forEach_normal_authors.
  - destruct (mkdirFailure host repoName); [discriminate |].
    apply forEach_normal_authors.
Qed.

End Materializer.








(** ** The clone command *)

(** For a submission by a roster student whose username is not
    [__proto__], with its destination absent, the materializer's whole
    step is the attempt to start
    [git clone git@<hostName>:<base.repo.full_name>.git <repoName>/<name>],
    [name] being the roster's display name for the author. *)
Lemma cloneSubmission_clones_roster_student (host : Host)
    (repoName hostName : string) (students : list Student)
    (submission : GithubPR) (u : User) (n : string) (w : World) :
  user submission = Some u ->
  login u <> "__proto__" ->
  rosterName students (login u) = Some n ->
  (repoName +:+ "/" +:+ n) ∉ fs w ->
  cloneSubmission host repoName hostName (buildStudentLookup students)
    submission w
  = tryCatch
      (spawn host ("git clone git@" +:+ hostName +:+ ":"
                     +:+ full_name (repo (base submission)) +:+ ".git "
                     +:+ repoName +:+ "/" +:+ n))
      (fun err => console_log err) w.
Proof.
  intros Hu Hproto Hname Hdest.
  assert (Hn : studentNameOf students submission = OwnValue n).
  { unfold studentNameOf, resolvedUsername. rewrite Hu.
    now apply getProperty_roster. }
  rewrite (cloneSubmission_attempts host repoName hostName students submission u w Hu).
  - unfold cloneCommand, destination. rewrite Hn. reflexivity.
  - unfold destination. rewrite Hn. exact Hdest.
Qed.

(** C6 (the code departs from the claim).  Two submissions that pass the
    filter and whose folder is not the roster's display name of the
    author.  The roster lists Eve with the username [__proto__]: the
    command started for her submission ends in [hw1/[object Object]], not
    in [hw1/Eve], because the assignment [studentLookup["__proto__"] =
    "Eve"] stores nothing and reading the property yields
    [Object.prototype].  And on the roster of Alice and Bob the submission
    of the account [constructor] is cloned into a folder named after the
    built-in function [Object]. *)
Theorem cloneRepositories_departs_from_roster_name :
  (rosterName [Samples.eve] "__proto__" = Some "Eve"
   /\ filterStudentsPullRequests [Samples.eves] [Samples.eve] = [Samples.eves]
   /\ cloneRepositories (Samples.calmHost []) "hw1" "github.com"
        [Samples.eves] [Samples.eve] Samples.emptyWorld
      = (Normal tt,
         {| fs := {["hw1"]};
            trace := [ Mkdir "hw1";
                       Spawn "git clone git@github.com:org/hw1.git hw1/[object Object]" ] |}))
  /\ (rosterName Samples.roster "constructor" = None
      /\ cloneRepositories (Samples.calmHost []) "hw1" "github.com"
           (filterStudentsPullRequests [Samples.stranger] Samples.roster)
           Samples.roster Samples.emptyWorld
         = (Normal tt,
            {| fs := {["hw1"]};
               trace := [ Mkdir "hw1";
                          Spawn "git clone git@github.com:org/hw1.git hw1/function Object() { [native code] }" ] |})).
Proof. repeat split; vm_compute; reflexivity. Qed.

(** ** Gap reporter *)

Section GapReporter.

Lemma includes_spec (githubUsernames : list string) (s : string) :
  includes githubUsernames s = bool_decide (s ∈ githubUsernames).
Proof.
  unfold includes. induction githubUsernames as [|x l IH].
  - symmetry. apply bool_decide_eq_false_2. apply not_elem_of_nil.
  - cbn [existsb]. rewrite IH.
    destruct (String.eqb_spec s x) as [->|Hne]; cbn [orb].
    + symmetry. apply bool_decide_eq_true_2. apply elem_of_cons. now left.
    + apply bool_decide_ext. rewrite elem_of_cons. intuition congruence.
Qed.

Lemma mapLogins_present (submissions : list GithubPR) (authors : list string)
    (w : World) :
  map user submissions = map (fun l => Some {| login := l |}) authors ->
  mapLogins submissions w = (Normal authors, w).
Proof.
  revert authors.
  induction submissions as [|submission rest IH]; intros [|a authors] H;
    try discriminate; [reflexivity |].
  simpl in H. injection H as Hu Hrest.
  simpl. unfold bind, user_login. rewrite Hu. simpl.
  unfold ret. now rewrite (IH _ Hrest).
Qed.

Lemma names_fold (difference : list Student) (names : string) :
  fold_left (fun names student => names +:+ (name student +:+ " "))
            difference names
  = names +:+ fold_right (fun student rest => name student +:+ " " +:+ rest)
                         "" difference.
Proof.
  revert names. induction difference as [|student rest IH]; intros names; simpl.
  - now rewrite RegExpFacts.append_nil_r.
  - rewrite IH, !RegExpFacts.append_assoc. reflexivity.
Qed.

End GapReporter.

(** C7.  When there are as many submissions as roster students, the gap
    reporter prints nothing, whoever the authors are; otherwise it prints
    one line, [Missing submissions from: ] followed by the display name
    and a space for every roster student whose username is not among the
    submissions' author usernames, in roster order. *)
Theorem logMissingSubmissions_reports (submissions : list GithubPR)
    (students : list Student) (w : World) :
  (length submissions = length students ->
   logMissingSubmissions submissions students w = (Normal tt, w))
  /\ (forall authors,
        length submissions <> length students ->
        map user submissions = map (fun l => Some {| login := l |}) authors ->
        logMissingSubmissions submissions students w
        = (Normal tt,
           emit (ConsoleLog (Str (missingLine (missingStudents authors students))))
                w)).
Proof.
  unfold logMissingSubmissions. split.
  - intros Hlen. apply Nat.eqb_eq in Hlen. now rewrite Hlen.
  - intros authors Hlen Hauthors. apply Nat.eqb_neq in Hlen. rewrite Hlen. simpl.
    unfold bind. rewrite (mapLogins_present _ _ _ Hauthors).
    assert (E : List.filter
                  (fun student => negb (includes authors (username student)))
                  students
                = missingStudents authors students).
    { apply filter_ext. intros student. now rewrite includes_spec. }
    rewrite E, names_fold. reflexivity.
Qed.

Lemma logMissingSubmissions_reports_witness :
  logMissingSubmissions [Samples.alices; Samples.alicesSecond] Samples.roster
    Samples.emptyWorld
  = (Normal tt, Samples.emptyWorld)
  /\ logMissingSubmissions [Samples.alices] Samples.roster Samples.emptyWorld
     = (Normal tt,
        {| fs := ∅; trace := [ConsoleLog (Str "Missing submissions from: Bob ")] |})
  /\ logMissingSubmissions [] Samples.roster Samples.emptyWorld
     = (Normal tt,
        {| fs := ∅;
           trace := [ConsoleLog (Str "Missing submissions from: Alice Bob ")] |}).
Proof.
  split; [| split].
  - apply (logMissingSubmissions_reports
             [Samples.alices; Samples.alicesSecond] Samples.roster
             Samples.emptyWorld).
    reflexivity.
  - apply (proj2 (logMissingSubmissions_reports [Samples.alices] Samples.roster
                    Samples.emptyWorld) ["a1"]).
    + simpl. lia.
    + reflexivity.
  - apply (proj2 (logMissingSubmissions_reports [] Samples.roster
                    Samples.emptyWorld) []).
    + simpl. lia.
    + reflexivity.
Defined.

(** ** Token expiry *)

Section TokenExpiry.

Lemma SFsub_NaN (y : spec_float) : SFsub prec emax NaN y = NaN.
Proof. reflexivity. Qed.

Lemma SFdiv_NaN (y : spec_float) : SFdiv prec emax NaN y = NaN.
Proof. reflexivity. Qed.

Lemma SFltb_NaN (y : spec_float) : SFltb NaN y = false.
Proof. reflexivity. Qed.

(** The only effect of the check is the warning, and it always returns. *)
Lemma notifyIfTokenExpiresSoon_total (host : Host)
    (tokenExpirationDate : option string) (w : World) :
  notifyIfTokenExpiresSoon host tokenExpirationDate w
  = (Normal tt,
     if SFltb (daysUntil host tokenExpirationDate) (ofZ 7)
     then emit (ConsoleLog
                  (Str "Heads up, your Personal Access Token is expiring in < 1 week"))
               w
     else w).
Proof.
  unfold notifyIfTokenExpiresSoon. now destruct (SFltb _ _).
Qed.

End TokenExpiry.

(** ** Pull-request fetcher *)

Section Fetcher.

Lemma message_not_inherited :
  bool_decide ("message" ∈ ObjectPrototypeKeys) = false.
Proof. vm_compute. reflexivity. Qed.

(** ['message' in response] on an object looks at its property names
    only. *)
Lemma messageIn_object (keys : list string) :
  messageIn (ParsedObject keys) = Some (bool_decide ("message" ∈ keys)).
Proof. unfold messageIn. now rewrite message_not_inherited, orb_false_r. Qed.

(** What [xhr] does with a response: the request is recorded, the token
    check runs, and the body stream decides the outcome. *)
Lemma xhr_responded (host : Host) (cfgUsername orgName repoName hostName
    githubToken : string) (statusCode : Z) (expiry : option string)
    (outcome : BodyOutcome) (w : World) :
  exchange host (xhrOptions cfgUsername orgName repoName hostName githubToken)
  = Responded statusCode expiry outcome ->
  xhr host cfgUsername orgName repoName hostName githubToken w
  = match outcome with
    | Ended data =>
        onEnd host orgName repoName (fold_left String.append data "")
    | Errored err =>
        throw (Str ("Failed XHR, status code: " +:+ pretty statusCode
                      +:+ " " +:+ newline +:+ " " +:+ err))
    end
      (snd (notifyIfTokenExpiresSoon host expiry
              (emit (HttpGet (xhrOptions cfgUsername orgName repoName hostName
                                githubToken)) w))).
Proof.
  intros H. unfold xhr, bind. rewrite H.
  now rewrite notifyIfTokenExpiresSoon_total.
Qed.

End Fetcher.

(** C10.  Without the [github-authentication-token-expiration] header, or
    with a value that does not parse as a date, the time of the date is
    [NaN], so is the number of days, [days < 7] is false, and the check
    returns normally without printing anything; the fetch goes on from the
    recorded request as if there had been no check. *)
Theorem notifyIfTokenExpiresSoon_silent_on_NaN (host : Host)
    (tokenExpirationDate : option string) (w : World)
    (Hnodate : tokenExpirationDate = None
               \/ exists s, tokenExpirationDate = Some s
                            /\ Date_parse host s = None) :
  Date_getTime host tokenExpirationDate = NaN
  /\ daysUntil host tokenExpirationDate = NaN
  /\ SFltb (daysUntil host tokenExpirationDate) (ofZ 7) = false
  /\ notifyIfTokenExpiresSoon host tokenExpirationDate w = (Normal tt, w)
  /\ (forall cfgUsername orgName repoName hostName githubToken statusCode
             outcome,
        exchange host
          (xhrOptions cfgUsername orgName repoName hostName githubToken)
        = Responded statusCode tokenExpirationDate outcome ->
        xhr host cfgUsername orgName repoName hostName githubToken w
        = match outcome with
          | Ended data =>
              onEnd host orgName repoName (fold_left String.append data "")
          | Errored err =>
              throw (Str ("Failed XHR, status code: " +:+ pretty statusCode
                            +:+ " " +:+ newline +:+ " " +:+ err))
          end
            (emit (HttpGet (xhrOptions cfgUsername orgName repoName hostName
                              githubToken)) w)).
Proof.
  assert (Htime : Date_getTime host tokenExpirationDate = NaN).
  { destruct Hnodate as [-> | (s & -> & Hs)]; simpl; [reflexivity |].
    now rewrite Hs. }
  assert (Hdays : daysUntil host tokenExpirationDate = NaN).
  { unfold daysUntil. rewrite Htime, SFsub_NaN, !SFdiv_NaN. reflexivity. }
  assert (Hquiet : forall w0,
             notifyIfTokenExpiresSoon host tokenExpirationDate w0
             = (Normal tt, w0)).
  { intros w0. rewrite notifyIfTokenExpiresSoon_total, Hdays. reflexivity. }
  split; [exact Htime |]. split; [exact Hdays |].
  split; [now rewrite Hdays |]. split; [apply Hquiet |].
  intros cfgUsername orgName repoName hostName githubToken statusCode outcome
         Hresponse.
  rewrite (xhr_responded _ _ _ _ _ _ _ _ _ _ Hresponse), Hquiet. reflexivity.
Qed.

Lemma notifyIfTokenExpiresSoon_silent_on_NaN_witness :
  notifyIfTokenExpiresSoon (Samples.calmHost []) None Samples.emptyWorld
  = (Normal tt, Samples.emptyWorld)
  /\ notifyIfTokenExpiresSoon (Samples.calmHost []) (Some "soon")
       Samples.emptyWorld
     = (Normal tt, Samples.emptyWorld).
Proof.
  split.
  - apply (notifyIfTokenExpiresSoon_silent_on_NaN (Samples.calmHost []) None).
    left. reflexivity.
  - apply (notifyIfTokenExpiresSoon_silent_on_NaN (Samples.calmHost [])
             (Some "soon")).
    right. exists "soon". split; reflexivity.
Defined.

(** C2.  When the body of the response parses as an object that has a
    [message] property, the fetch fails with the reason
    [Warning: No repository found for: <org>/<repo>] and resolves nothing;
    when it parses as a list, the fetch resolves with that list.  The
    fetch has one outcome, so the two exclude each other. *)
Theorem xhr_rejects_error_resolves_list (host : Host)
    (cfgUsername orgName repoName hostName githubToken : string)
    (statusCode : Z) (expiry : option string) (data : list string) (w : World)
    (Hresponse :
       exchange host (xhrOptions cfgUsername orgName repoName hostName githubToken)
       = Responded statusCode expiry (Ended data)) :
  let body := fold_left String.append data "" in
  let fetched := xhr host cfgUsername orgName repoName hostName githubToken w in
  (forall keys,
      JSON_parse host body = Some (ParsedObject keys) ->
      "message" ∈ keys ->
      fst fetched
      = Throw (Str ("Warning: No repository found for: "
                      +:+ orgName +:+ "/" +:+ repoName))
      /\ forall response, fst fetched <> Normal response)
  /\ (forall items,
        JSON_parse host body = Some (ParsedArray items) ->
        fst fetched = Normal (ParsedArray items)
        /\ forall reason, fst fetched <> Throw reason).
Proof.
  intros body fetched. subst fetched.
  rewrite (xhr_responded _ _ _ _ _ _ _ _ _ _ Hresponse).
  fold body. unfold onEnd. split.
  - intros keys Hparse Hmessage. rewrite Hparse, messageIn_object.
    rewrite (bool_decide_eq_true_2 _ Hmessage). simpl.
    split; [reflexivity | discriminate].
  - intros items Hparse. rewrite Hparse. simpl.
    split; [reflexivity | discriminate].
Qed.

Lemma xhr_rejects_error_resolves_list_witness :
  (fst (xhr (Samples.errorHost) "instructor" "org" "hw1" "github.com" "token"
          Samples.emptyWorld)
   = Throw (Str "Warning: No repository found for: org/hw1"))
  /\ fst (xhr (Samples.calmHost [Samples.alices]) "instructor" "org" "hw1"
            "github.com" "token" Samples.emptyWorld)
     = Normal (ParsedArray [Samples.alices]).
Proof.
  split.
  - destruct (xhr_rejects_error_resolves_list Samples.errorHost "instructor"
                "org" "hw1" "github.com" "token" 404 None
                ["{ message: Not Found }"] Samples.emptyWorld eq_refl)
      as [Herror _].
    apply (Herror ["message"; "documentation_url"]).
    + reflexivity.
    + apply elem_of_cons. now left.
  - destruct (xhr_rejects_error_resolves_list (Samples.calmHost [Samples.alices])
                "instructor" "org" "hw1" "github.com" "token" 200 None
                ["[...]"] Samples.emptyWorld eq_refl)
      as [_ Hlist].
    apply (Hlist [Samples.alices]). reflexivity.
Defined.

(** ** The trace only grows *)

Create HintDb appends.

Lemma Appends_ret {A} (a : A) : Appends (ret a).
Proof. intros w. exists []. simpl. now rewrite app_nil_r. Qed.

Lemma Appends_throw {A} (v : Value) : Appends (@throw A v).
Proof. intros w. exists []. simpl. now rewrite app_nil_r. Qed.

Lemma Appends_emit (e : Event) :
  Appends (fun w => (Normal tt, emit e w)).
Proof. intros w. exists [e]. reflexivity. Qed.

Lemma Appends_console_log (v : Value) : Appends (console_log v).
Proof. apply Appends_emit. Qed.

Lemma Appends_process_exit {A} : Appends (@process_exit A).
Proof. intros w. exists [ProcessExit]. reflexivity. Qed.

Lemma Appends_uncaught {A} (v : Value) : Appends (@uncaught A v).
Proof. intros w. exists [UncaughtException v]. reflexivity. Qed.

Lemma Appends_existsSync (path : string) : Appends (existsSync path).
Proof. intros w. exists []. simpl. now rewrite app_nil_r. Qed.

Lemma Appends_mkdirSync (host : Host) (path : string) :
  Appends (mkdirSync host path).
Proof.
  intros w. unfold mkdirSync. destruct (mkdirFailure host path); simpl.
  - exists []. now rewrite app_nil_r.
  - now exists [Mkdir path].
Qed.

Lemma Appends_spawn (host : Host) (command : string) :
  Appends (spawn host command).
Proof.
  intros w. unfold spawn. destruct (spawnFailure host command); simpl.
  - exists []. now rewrite app_nil_r.
  - now exists [Spawn command].
Qed.

Lemma Appends_bind {A B} (m : JS A) (k : A -> JS B) :
  Appends m -> (forall a, Appends (k a)) -> Appends (bind m k).
Proof.
  intros Hm Hk w. unfold bind. destruct (Hm w) as [l1 H1].
  destruct (m w) as [[a | v |] w1]; simpl in H1.
  - destruct (Hk a w1) as [l2 H2]. exists (l1 ++ l2).
    now rewrite H2, H1, app_assoc.
  - now exists l1.
  - now exists l1.
Qed.

Lemma Appends_tryCatch {A} (m : JS A) (handler : Value -> JS A) :
  Appends m -> (forall v, Appends (handler v)) -> Appends (tryCatch m handler).
Proof.
  intros Hm Hh w. unfold tryCatch. destruct (Hm w) as [l1 H1].
  destruct (m w) as [[a | v |] w1]; simpl in H1.
  - now exists l1.
  - destruct (Hh v w1) as [l2 H2]. exists (l1 ++ l2).
    now rewrite H2, H1, app_assoc.
  - now exists l1.
Qed.

Lemma Appends_if {A} (b : bool) (m1 m2 : JS A) :
  Appends m1 -> Appends m2 -> Appends (if b then m1 else m2).
Proof. now destruct b. Qed.

#[local] Hint Resolve Appends_ret Appends_throw Appends_emit Appends_console_log
  Appends_process_exit Appends_uncaught Appends_existsSync Appends_mkdirSync
  Appends_spawn Appends_if : appends.
#[local] Hint Extern 2 (Appends (bind _ _)) => apply Appends_bind; [| intro] : appends.
#[local] Hint Extern 2 (Appends (tryCatch _ _)) =>
  apply Appends_tryCatch; [| intro] : appends.

Lemma Appends_user_login (submission : GithubPR) :
  Appends (user_login submission).
Proof. unfold user_login. destruct (user submission); auto with appends. Qed.
#[local] Hint Resolve Appends_user_login : appends.

Lemma Appends_forEach {A} (array : list A) (body : A -> JS unit) :
  (forall x, Appends (body x)) -> Appends (forEach array body).
Proof. intros H. induction array; simpl; auto with appends. Qed.

Lemma Appends_cloneSubmission (host : Host) (repoName hostName : string)
    (studentLookup : gmap string string) (submission : GithubPR) :
  Appends (cloneSubmission host repoName hostName studentLookup submission).
Proof. unfold cloneSubmission, spawnProcess. auto 8 with appends. Qed.

Lemma Appends_cloneRepositories (host : Host) (repoName hostName : string)
    (submissions : list GithubPR) (students : list Student) :
  Appends (cloneRepositories host repoName hostName submissions students).
Proof.
  unfold cloneRepositories.
  auto 8 using Appends_forEach, Appends_cloneSubmission with appends.
Qed.

Lemma Appends_mapLogins (submissions : list GithubPR) :
  Appends (mapLogins submissions).
Proof. induction submissions; simpl; auto 8 with appends. Qed.

Lemma Appends_logMissingSubmissions (submissions : list GithubPR)
    (students : list Student) :
  Appends (logMissingSubmissions submissions students).
Proof.
  unfold logMissingSubmissions.
  auto 8 using Appends_mapLogins with appends.
Qed.

Lemma Appends_notifyIfTokenExpiresSoon (host : Host) (date : option string) :
  Appends (notifyIfTokenExpiresSoon host date).
Proof. unfold notifyIfTokenExpiresSoon. auto with appends. Qed.

Lemma Appends_onEnd (host : Host) (orgName repoName body : string) :
  Appends (onEnd host orgName repoName body).
Proof.
  unfold onEnd. destruct (JSON_parse host body) as [response|];
    [destruct (messageIn response) as [[|]|] |]; auto with appends.
Qed.

Lemma StartsWith_emit_bind {A} (e : Event) (k : unit -> JS A) :
  (forall a, Appends (k a)) ->
  StartsWith e (bind (fun w => (Normal tt, emit e w)) k).
Proof.
  intros Hk w. unfold bind. destruct (Hk tt (emit e w)) as [l H].
  exists l. rewrite H. simpl. now rewrite <- app_assoc.
Qed.

Lemma StartsWith_bind {A B} (e : Event) (m : JS A) (k : A -> JS B) :
  StartsWith e m -> (forall a, Appends (k a)) -> StartsWith e (bind m k).
Proof.
  intros Hm Hk w. unfold bind. destruct (Hm w) as [l1 H1].
  destruct (m w) as [[a | v |] w1]; simpl in H1.
  - destruct (Hk a w1) as [l2 H2]. exists (l1 ++ l2).
    rewrite H2, H1, <- app_assoc. reflexivity.
  - now exists l1.
  - now exists l1.
Qed.

Lemma StartsWith_tryCatch {A} (e : Event) (m : JS A) (handler : Value -> JS A) :
  StartsWith e m -> (forall v, Appends (handler v)) ->
  StartsWith e (tryCatch m handler).
Proof.
  intros Hm Hh w. unfold tryCatch. destruct (Hm w) as [l1 H1].
  destruct (m w) as [[a | v |] w1]; simpl in H1.
  - now exists l1.
  - destruct (Hh v w1) as [l2 H2]. exists (l1 ++ l2).
    rewrite H2, H1, <- app_assoc. reflexivity.
  - now exists l1.
Qed.

(** ** Pull-request fetcher: the request comes first *)

Lemma xhr_requests_first (host : Host)
    (cfgUsername orgName repoName hostName githubToken : string) :
  StartsWith
    (HttpGet (xhrOptions cfgUsername orgName repoName hostName githubToken))
    (xhr host cfgUsername orgName repoName hostName githubToken).
Proof.
  unfold xhr. apply StartsWith_emit_bind. intros _.
  destruct (exchange host _) as [statusCode expiry [data | err] | err];
    auto using Appends_notifyIfTokenExpiresSoon, Appends_onEnd with appends.
Qed.

(** ** Entry point *)

Section Main.

Variable host : Host.
Variable cfg : config.t.

(** With a valid repository name the first thing [main] does is the
    request. *)
Lemma main_valid_requests (argv : list string) (repoName : string) (w : World) :
  argv !! CliArgs.RepoName = Some repoName ->
  error (validateRepoName (Some repoName)) = None ->
  exists later,
    trace (snd (main host cfg argv w))
    = trace w
      ++ HttpGet (xhrOptions (config.username cfg) (config.orgName cfg) repoName
                    (config.hostName cfg) (config.githubToken cfg))
      :: later.
Proof.
  intros Hargv Hvalid. unfold main. rewrite Hargv, Hvalid.
  change (bind (ret tt) ?k w) with (k tt w). cbv beta.
  apply StartsWith_tryCatch; [| auto with appends].
  apply StartsWith_bind; [apply xhr_requests_first |].
  intros [items | keys |];
    auto 8 using Appends_cloneRepositories, Appends_logMissingSubmissions
      with appends.
Qed.

End Main.

(** C8.  When the repository name is missing from the command line or
    does not match [/^\w/], validation yields an error message, and all
    [main] does is print that message and exit: no request is issued, no
    directory made, no clone started. *)
Theorem main_exits_on_invalid_repoName (host : Host) (cfg : config.t)
    (argv : list string) (w : World)
    (Hinvalid :
       argv !! CliArgs.RepoName = None
       \/ exists s, argv !! CliArgs.RepoName = Some s
                    /\ RegExp.test startsWithWord s = false) :
  exists msg,
    error (validateRepoName (argv !! CliArgs.RepoName)) = Some msg
    /\ main host cfg argv w
       = (Halt,
          {| fs := fs w;
             trace := trace w ++ [ConsoleLog (Str msg); ProcessExit] |}).
Proof.
  apply validateRepoName_error in Hinvalid as [msg Hmsg].
  exists msg. split; [exact Hmsg |].
  unfold main. rewrite Hmsg.
  unfold bind, console_log, process_exit, emit. simpl.
  now rewrite <- app_assoc.
Qed.

Lemma main_exits_on_invalid_repoName_witness :
  main (Samples.calmHost [Samples.alices]) Samples.cfg
    ["node"; "cloneHw.js"; "-hw1"] Samples.emptyWorld
  = (Halt,
     {| fs := ∅;
        trace := [ ConsoleLog (Str "Invalid repository name! Exiting...");
                   ProcessExit ] |})
  /\ main (Samples.calmHost [Samples.alices]) Samples.cfg
       ["node"; "cloneHw.js"] Samples.emptyWorld
     = (Halt,
        {| fs := ∅;
           trace := [ ConsoleLog
                        (Str "No repository name supplied in arguments! Exiting...");
                      ProcessExit ] |}).
Proof.
  split.
  - destruct (main_exits_on_invalid_repoName (Samples.calmHost [Samples.alices])
                Samples.cfg ["node"; "cloneHw.js"; "-hw1"] Samples.emptyWorld)
      as (msg & Hmsg & Hmain).
    + right. exists "-hw1". split; reflexivity.
    + injection Hmsg as <-. exact Hmain.
  - destruct (main_exits_on_invalid_repoName (Samples.calmHost [Samples.alices])
                Samples.cfg ["node"; "cloneHw.js"] Samples.emptyWorld)
      as (msg & Hmsg & Hmain).
    + left. reflexivity.
    + injection Hmsg as <-. exact Hmain.
Defined.

(** ** Whole runs *)

(** One submission, by Alice: one clone into [hw1/Alice], and Bob is
    reported missing. *)
Example main_one_submission :
  trace (snd (main (Samples.calmHost [Samples.pr (Some "a1") "main" "org/a1-hw"])
                Samples.cfg ["node"; "cloneHw.js"; "hw1"] Samples.emptyWorld))
  = [ HttpGet {| hostname := "api.github.com";
                 path := "/repos/org/hw1/pulls";
                 method := "GET";
                 headers := [ ("User-Agent", "instructor");
                              ("Authorization", "token token") ] |};
      Mkdir "hw1";
      Spawn "git clone git@github.com:org/a1-hw.git hw1/Alice";
      ConsoleLog (Str "Missing submissions from: Bob ") ].
Proof. vm_compute. reflexivity. Qed.

(** A pull request from a feature branch is no submission: nothing is
    cloned and both students are reported. *)
Example main_feature_branch :
  trace (snd (main (Samples.calmHost [Samples.pr (Some "a1") "feature-x" "org/a1-hw"])
                Samples.cfg ["node"; "cloneHw.js"; "hw1"] Samples.emptyWorld))
  = [ HttpGet (xhrOptions "instructor" "org" "hw1" "github.com" "token");
      Mkdir "hw1";
      ConsoleLog (Str "Missing submissions from: Alice Bob ") ].
Proof. vm_compute. reflexivity. Qed.

(** [Main] is not [main]. *)
Example filter_is_case_sensitive :
  filterStudentsPullRequests [Samples.pr (Some "a1") "Main" "org/a1-hw"]
    Samples.roster = [].
Proof. vm_compute. reflexivity. Qed.

(** Two pull requests by Alice both pass, in the order of the input. *)
Example filter_keeps_duplicates_in_order :
  filterStudentsPullRequests
    [Samples.alicesSecond; Samples.bobs; Samples.alices] Samples.roster
  = [Samples.alicesSecond; Samples.bobs; Samples.alices].
Proof. vm_compute. reflexivity. Qed.

(** Alice's folder is already there: she is skipped, Bob is cloned. *)
Example main_skips_existing_folder :
  trace (snd (main (Samples.calmHost [Samples.alices; Samples.bobs])
                Samples.cfg ["node"; "cloneHw.js"; "hw1"]
                {| fs := {["hw1"; "hw1/Alice"]}; trace := [] |}))
  = [ HttpGet (xhrOptions "instructor" "org" "hw1" "github.com" "token");
      ConsoleLog (Str "Folder already exists for Alice. Skipping...");
      Spawn "git clone git@github.com:org/hw1.git hw1/Bob" ].
Proof. vm_compute. reflexivity. Qed.

(** Two submissions by Alice and none by Bob: as many submissions as
    students, so nobody is reported missing. *)
Example main_duplicate_author_hides_gap :
  trace (snd (main (Samples.calmHost [Samples.alices; Samples.alicesSecond])
                Samples.cfg ["node"; "cloneHw.js"; "hw1"] Samples.emptyWorld))
  = [ HttpGet (xhrOptions "instructor" "org" "hw1" "github.com" "token");
      Mkdir "hw1";
      Spawn "git clone git@github.com:org/hw1.git hw1/Alice";
      Spawn "git clone git@github.com:org/hw1.git hw1/Alice" ].
Proof. vm_compute. reflexivity. Qed.

(** An error payload ends the run after the request. *)
Example main_api_error :
  main Samples.errorHost Samples.cfg ["node"; "cloneHw.js"; "hw1"]
    Samples.emptyWorld
  = (Halt,
     {| fs := ∅;
        trace := [ HttpGet (xhrOptions "instructor" "org" "hw1" "github.com" "token");
                   ConsoleLog (Str "Warning: No repository found for: org/hw1");
                   ProcessExit ] |}).
Proof. vm_compute. reflexivity. Qed.

(** The token warning: six days and a bit left warn, seven do not. *)
Example token_warning_at_six_days :
  daysUntil (Samples.expiringHost 6) (Some "expiry") = ofZ 6
  /\ notifyIfTokenExpiresSoon (Samples.expiringHost 6) (Some "expiry")
       Samples.emptyWorld
     = (Normal tt,
        {| fs := ∅;
           trace := [ ConsoleLog
                        (Str "Heads up, your Personal Access Token is expiring in < 1 week") ] |}).
Proof. split; vm_compute; reflexivity. Qed.

Example no_token_warning_at_seven_days :
  daysUntil (Samples.expiringHost 7) (Some "expiry") = ofZ 7
  /\ notifyIfTokenExpiresSoon (Samples.expiringHost 7) (Some "expiry")
       Samples.emptyWorld
     = (Normal tt, Samples.emptyWorld).
Proof. split; vm_compute; reflexivity. Qed.

(** Had Alice's first clone made its folder at once, her second
    submission would have been skipped. *)
Example main_duplicate_author_eager_child :
  trace (snd (main (Samples.eagerHost [Samples.alices; Samples.alicesSecond])
                Samples.cfg ["node"; "cloneHw.js"; "hw1"] Samples.emptyWorld))
  = [ HttpGet (xhrOptions "instructor" "org" "hw1" "github.com" "token");
      Mkdir "hw1";
      Spawn "git clone git@github.com:org/hw1.git hw1/Alice";
      ConsoleLog (Str "Folder already exists for Alice. Skipping...") ].
Proof. vm_compute. reflexivity. Qed.

(** A pull request without author on a roster that lists [no user found]:
    the run ends with the exception, and Alice's submission, next in the
    list, is neither cloned nor skipped. *)
Example main_aborts_on_absent_author :
  main (Samples.calmHost [Samples.anonymous; Samples.alices]) Samples.ghostCfg
    ["node"; "cloneHw.js"; "hw1"] Samples.emptyWorld
  = (Halt,
     {| fs := {["hw1"]};
        trace := [ HttpGet (xhrOptions "instructor" "org" "hw1" "github.com" "token");
                   Mkdir "hw1";
                   ConsoleLog (TypeError "Cannot read property 'login' of undefined");
                   ProcessExit ] |}).
Proof. vm_compute. reflexivity. Qed.

(** * Further properties of the code *)

(** ** Validation *)

(** X1.  [validateRepoName] looks at nothing but the first character: a
    name is accepted exactly when it starts with a letter, a digit or an
    underscore; a missing name and the empty name get the message
    [No repository name supplied ...]; every other name gets
    [Invalid repository name! ...]. *)
Theorem validateRepoName_cases (repoName : option string) :
  (error (validateRepoName repoName) = None <->
   exists c rest, repoName = Some (String c rest) /\ isWordChar c = true)
  /\ (error (validateRepoName repoName)
      = Some "No repository name supplied in arguments! Exiting..." <->
      repoName = None \/ repoName = Some "")
  /\ (error (validateRepoName repoName)
      = Some "Invalid repository name! Exiting..." <->
      exists c rest, repoName = Some (String c rest) /\ isWordChar c = false).
Proof.
  split; [apply validateRepoName_ok |].
  destruct repoName as [[|c rest]|].
  - split.
    + split; [intros _; now right | reflexivity].
    + split; [discriminate | intros (c & rest & [=] & _)].
  - assert (E : RegExp.test startsWithWord (String c rest) = isWordChar c).
    { destruct (isWordChar c) eqn:Hc.
      - apply startsWithWord_spec. eauto.
      - destruct (RegExp.test startsWithWord (String c rest)) eqn:Ht;
          [| reflexivity].
        apply startsWithWord_spec in Ht as (c' & rest' & [= <- <-] & Hc').
        congruence. }
    unfold validateRepoName. rewrite E.
    destruct (isWordChar c) eqn:Hc; simpl.
    + split.
      * split; [discriminate | intros [H | H]; discriminate].
      * split; [discriminate |].
        intros (c' & rest' & [= <- <-] & Hc'). congruence.
    + split.
      * split; [discriminate | intros [H | H]; discriminate].
      * split; [intros _; eauto | reflexivity].
  - split.
    + split; [intros _; now left | reflexivity].
    + split; [discriminate | intros (c & rest & [=] & _)].
Qed.

(** ** Submission filter *)

Section FilterAlgebra.

Lemma List_filter_idempotent {A} (f : A -> bool) (l : list A) :
  List.filter f (List.filter f l) = List.filter f l.
Proof.
  induction l as [|x l IH]; simpl; [reflexivity |].
  destruct (f x) eqn:E; simpl; [now rewrite E, IH | exact IH].
Qed.

Lemma List_filter_sublist {A} (f : A -> bool) (l : list A) :
  List.filter f l `sublist_of` l.
Proof.
  induction l as [|x l IH]; simpl; [constructor |].
  destruct (f x); now constructor.
Qed.

Lemma List_filter_weaken_sublist {A} (f g : A -> bool) (l : list A) :
  (forall x, f x = true -> g x = true) ->
  List.filter f l `sublist_of` List.filter g l.
Proof.
  intros H. induction l as [|x l IH]; simpl; [constructor |].
  destruct (f x) eqn:Ef.
  - rewrite (H _ Ef). now constructor.
  - destruct (g x); [now constructor | exact IH].
Qed.

End FilterAlgebra.

(** X2.  The filter treats every pull request on its own: filtering two
    lists one after the other gives the filtered first list followed by
    the filtered second one. *)
Theorem filterStudentsPullRequests_app (first second : list GithubPR)
    (students : list Student) :
  filterStudentsPullRequests (first ++ second) students
  = filterStudentsPullRequests first students
    ++ filterStudentsPullRequests second students.
Proof. rewrite !filterStudentsPullRequests_spec. apply List.filter_app. Qed.

(** X3.  Filtering the filter's output again changes nothing. *)
Theorem filterStudentsPullRequests_idempotent (pullRequests : list GithubPR)
    (students : list Student) :
  filterStudentsPullRequests
    (filterStudentsPullRequests pullRequests students) students
  = filterStudentsPullRequests pullRequests students.
Proof.
  rewrite (filterStudentsPullRequests_spec pullRequests).
  rewrite filterStudentsPullRequests_spec. apply List_filter_idempotent.
Qed.

(** X4.  The filter invents and reorders nothing, and whatever it keeps
    has a [head] whose [ref] is exactly [main] or [master]: a pull request
    without [head] is dropped, whoever wrote it. *)
Theorem filterStudentsPullRequests_sublist_default_branch
    (pullRequests : list GithubPR) (students : list Student) :
  filterStudentsPullRequests pullRequests students `sublist_of` pullRequests
  /\ forall submission,
       In submission (filterStudentsPullRequests pullRequests students) ->
       exists h, head submission = Some h
                 /\ (ref h = "main" \/ ref h = "master").
Proof.
  rewrite filterStudentsPullRequests_spec. split.
  - apply List_filter_sublist.
  - intros submission Hin. apply filter_In in Hin as [_ Hin].
    apply andb_true_iff in Hin as [Hb _]. now apply isDefaultBranch_spec.
Qed.

(** X5.  Of the roster, the filter uses the set of usernames and nothing
    else: display names, the order of the students and repeated entries
    make no difference. *)
Theorem filterStudentsPullRequests_usernames_only
    (pullRequests : list GithubPR) (students1 students2 : list Student)
    (Hsame : forall u, u ∈ rosterUsernames students1
                       <-> u ∈ rosterUsernames students2) :
  filterStudentsPullRequests pullRequests students1
  = filterStudentsPullRequests pullRequests students2.
Proof.
  rewrite !filterStudentsPullRequests_spec. apply filter_ext.
  intros pullRequest. do 2 f_equal. apply bool_decide_ext, Hsame.
Qed.

Lemma filterStudentsPullRequests_usernames_only_witness :
  filterStudentsPullRequests [Samples.alices; Samples.stranger; Samples.bobs]
    Samples.roster
  = filterStudentsPullRequests [Samples.alices; Samples.stranger; Samples.bobs]
      MoreSamples.rosterRewritten.
Proof.
  apply (filterStudentsPullRequests_usernames_only
           [Samples.alices; Samples.stranger; Samples.bobs]
           Samples.roster MoreSamples.rosterRewritten).
  intros u. unfold rosterUsernames. simpl.
  rewrite !elem_of_cons, !elem_of_nil. tauto.
Defined.

(** X6.  A larger roster never loses a submission: if every username of
    one roster is a username of another, what the filter keeps for the
    first is, in order, among what it keeps for the second. *)
Theorem filterStudentsPullRequests_monotone
    (pullRequests : list GithubPR) (students1 students2 : list Student)
    (Hsub : forall u, u ∈ rosterUsernames students1
                      -> u ∈ rosterUsernames students2) :
  filterStudentsPullRequests pullRequests students1
  `sublist_of` filterStudentsPullRequests pullRequests students2.
Proof.
  rewrite !filterStudentsPullRequests_spec.
  apply List_filter_weaken_sublist. intros pullRequest H.
  apply andb_true_iff in H as [Hb H]. rewrite Hb. simpl.
  apply orb_true_iff in H as [H | H]; [| now rewrite H, orb_true_r].
  apply bool_decide_eq_true_1, Hsub in H.
  now rewrite (bool_decide_eq_true_2 _ H).
Qed.

Lemma filterStudentsPullRequests_monotone_witness :
  filterStudentsPullRequests [Samples.alices; Samples.bobs] [Samples.bob]
  `sublist_of`
  filterStudentsPullRequests [Samples.alices; Samples.bobs] Samples.roster.
Proof.
  apply (filterStudentsPullRequests_monotone [Samples.alices; Samples.bobs]
           [Samples.bob] Samples.roster).
  intros u. unfold rosterUsernames. simpl.
  rewrite !elem_of_cons, !elem_of_nil. tauto.
Defined.

(** ** The roster lookup *)

(** X7.  The own properties of [studentLookup] are exactly the roster's
    usernames, except [__proto__], which the loop can never store. *)
Theorem buildStudentLookup_dom (students : list Student) :
  dom (buildStudentLookup students)
  = list_to_set (rosterUsernames students) ∖ {["__proto__"]}.
Proof.
  apply set_eq. intros u.
  rewrite elem_of_dom, buildStudentLookup_lookup, elem_of_difference,
    elem_of_list_to_set, elem_of_singleton.
  destruct (decide (u = "__proto__")) as [->|Hu].
  - split; [intros [x Hx]; discriminate | intros [_ H]; now contradiction H].
  - rewrite rosterName_is_Some. tauto.
Qed.

(** X8.  When a username occurs several times in the roster, the display
    name of its last occurrence is the one looked up. *)
Theorem buildStudentLookup_last_wins (before after : list Student)
    (student : Student)
    (Hproto : username student <> "__proto__")
    (Hlast : username student ∉ rosterUsernames after) :
  getProperty (username student)
    (buildStudentLookup (before ++ student :: after))
  = OwnValue (name student).
Proof.
  assert (H : buildStudentLookup (before ++ student :: after)
              !! username student = Some (name student)).
  { induction after as [|x after IH] using rev_ind.
    - rewrite buildStudentLookup_snoc. unfold setProperty.
      destruct (decide _); [contradiction | apply lookup_insert_eq].
    - unfold rosterUsernames in Hlast. rewrite map_app in Hlast.
      rewrite elem_of_app in Hlast. simpl in Hlast.
      replace (before ++ student :: after ++ [x])
        with ((before ++ student :: after) ++ [x])
        by (now rewrite <- app_assoc).
      rewrite buildStudentLookup_snoc. unfold setProperty.
      destruct (decide _); [apply IH; tauto |].
      rewrite lookup_insert_ne; [apply IH; tauto |].
      intros E. apply Hlast. right. rewrite E. apply elem_of_cons. now left. }
  unfold getProperty. now rewrite H.
Qed.

Lemma buildStudentLookup_last_wins_witness :
  getProperty "b1" (buildStudentLookup MoreSamples.rosterRewritten)
  = OwnValue "Bob".
Proof.
  apply (buildStudentLookup_last_wins
           [ {| name := "Robert"; username := "b1" |};
             {| name := "Alicia"; username := "a1" |} ]
           [] {| name := "Bob"; username := "b1" |}).
  - discriminate.
  - apply not_elem_of_nil.
Defined.

(** ** Gap reporter *)

Section GapReporterMore.

Lemma mapLogins_absent (submissions : list GithubPR) (w : World) :
  Exists (fun submission => user submission = None) submissions ->
  mapLogins submissions w
  = (Throw (TypeError "Cannot read property 'login' of undefined"), w).
Proof.
  induction submissions as [|submission rest IH]; intros H.
  - inversion H.
  - simpl. unfold bind, user_login.
    destruct (user submission) as [u|] eqn:Hu; [| reflexivity].
    simpl. inversion H as [? ? Hnone | ? ? Hrest]; subst; [congruence |].
    now rewrite (IH Hrest).
Qed.

Lemma authors_of_present (submissions : list GithubPR) :
  Forall (fun submission => is_Some (user submission)) submissions ->
  map user submissions
  = map (fun l => Some {| login := l |}) (map resolvedUsername submissions).
Proof.
  induction 1 as [|submission rest [[l] Hu] _ IH]; [reflexivity |].
  simpl. unfold resolvedUsername at 1. rewrite Hu, IH. reflexivity.
Qed.

Lemma Forall_sublist {A} (P : A -> Prop) (l1 l2 : list A) :
  l1 `sublist_of` l2 -> Forall P l2 -> Forall P l1.
Proof.
  induction 1 as [|x k1 k2 _ IH|x k1 k2 _ IH]; intros HP; [constructor | |].
  - inversion HP; subst. constructor; auto.
  - inversion HP; subst. auto.
Qed.

Lemma missingStudents_nil (authors : list string) (students : list Student) :
  (forall student, In student students -> username student ∈ authors) ->
  missingStudents authors students = [].
Proof.
  unfold missingStudents.
  induction students as [|student rest IH]; intros Hall; [reflexivity |].
  simpl. rewrite (bool_decide_eq_true_2 _ (Hall student (or_introl eq_refl))).
  simpl. apply IH. intros s Hs. apply Hall. now right.
Qed.

(** What the reporter prints when the counts differ and every submission
    carries its author. *)
Lemma logMissingSubmissions_prints (submissions : list GithubPR)
    (students : list Student) (authors : list string) (w : World) :
  length submissions <> length students ->
  map user submissions = map (fun l => Some {| login := l |}) authors ->
  logMissingSubmissions submissions students w
  = (Normal tt,
     emit (ConsoleLog (Str (missingLine (missingStudents authors students)))) w).
Proof.
  intros Hlen Hauthors. unfold logMissingSubmissions.
  apply Nat.eqb_neq in Hlen. rewrite Hlen. simpl.
  unfold bind. rewrite (mapLogins_present _ _ _ Hauthors).
  assert (E : List.filter
                (fun student => negb (includes authors (username student)))
                students
              = missingStudents authors students).
  { apply filter_ext. intros student. now rewrite includes_spec. }
  rewrite E, names_fold. reflexivity.
Qed.

End GapReporterMore.

(** X9.  Filter and reporter together: when the number of submissions
    differs from the number of students (and the fetched pull requests
    carry their authors), the line printed names exactly the roster
    students that have no pull request from [main] or [master] in the
    fetched list, in roster order. *)
Theorem logMissingSubmissions_after_filter (pullRequests : list GithubPR)
    (students : list Student) (w : World)
    (Hauthors : Forall (fun pullRequest => is_Some (user pullRequest))
                       pullRequests)
    (Hcount : length (filterStudentsPullRequests pullRequests students)
              <> length students) :
  logMissingSubmissions (filterStudentsPullRequests pullRequests students)
    students w
  = (Normal tt,
     emit (ConsoleLog
             (Str (missingLine (studentsWithoutSubmission pullRequests students))))
          w).
Proof.
  set (submissions := filterStudentsPullRequests pullRequests students) in *.
  assert (Hsub : Forall (fun s => is_Some (user s)) submissions).
  { apply (Forall_sublist _ _ pullRequests); [| exact Hauthors].
    unfold submissions. rewrite filterStudentsPullRequests_spec.
    apply List_filter_sublist. }
  rewrite (logMissingSubmissions_prints _ _ _ _ Hcount (authors_of_present _ Hsub)).
  replace (missingStudents (map resolvedUsername submissions) students)
    with (studentsWithoutSubmission pullRequests students); [reflexivity |].
  symmetry. unfold missingStudents, studentsWithoutSubmission.
  apply filter_ext_in. intros student Hstudent. f_equal.
  apply eq_true_iff_eq. rewrite bool_decide_eq_true, existsb_exists.
  rewrite list_elem_of_In, in_map_iff. unfold submissions.
  rewrite filterStudentsPullRequests_spec. split.
  - intros (pullRequest & Hname & Hin). apply filter_In in Hin as [Hin Hkeep].
    exists pullRequest. split; [exact Hin |].
    apply andb_true_iff in Hkeep as [Hb _]. rewrite Hb, Hname.
    apply String.eqb_refl.
  - intros (pullRequest & Hin & Hkeep).
    apply andb_true_iff in Hkeep as [Hb Hname]. apply String.eqb_eq in Hname.
    exists pullRequest. split; [exact Hname |]. apply filter_In.
    split; [exact Hin |]. rewrite Hb. simpl. apply orb_true_iff. left.
    apply bool_decide_eq_true_2. rewrite Hname.
    apply list_elem_of_In, in_map. exact Hstudent.
Qed.

Lemma logMissingSubmissions_after_filter_witness :
  logMissingSubmissions
    (filterStudentsPullRequests
       [Samples.pr (Some "a1") "feature-x" "org/hw1"; Samples.bobs;
        MoreSamples.outsiders]
       Samples.roster)
    Samples.roster Samples.emptyWorld
  = (Normal tt,
     {| fs := ∅; trace := [ConsoleLog (Str "Missing submissions from: Alice ")] |}).
Proof.
  apply (logMissingSubmissions_after_filter
           [Samples.pr (Some "a1") "feature-x" "org/hw1"; Samples.bobs;
            MoreSamples.outsiders]
           Samples.roster Samples.emptyWorld).
  - repeat constructor; eexists; reflexivity.
  - vm_compute. lia.
Defined.

(** X10.  When the counts differ and some submission lacks its author,
    the reporter throws a [TypeError] and prints nothing. *)
Theorem logMissingSubmissions_throws (submissions : list GithubPR)
    (students : list Student) (w : World)
    (Hcount : length submissions <> length students)
    (Habsent : Exists (fun submission => user submission = None) submissions) :
  logMissingSubmissions submissions students w
  = (Throw (TypeError "Cannot read property 'login' of undefined"), w).
Proof.
  unfold logMissingSubmissions. apply Nat.eqb_neq in Hcount. rewrite Hcount.
  simpl. unfold bind. now rewrite (mapLogins_absent _ _ Habsent).
Qed.

Lemma logMissingSubmissions_throws_witness :
  logMissingSubmissions [Samples.alices; Samples.anonymous; Samples.bobs]
    Samples.roster Samples.emptyWorld
  = (Throw (TypeError "Cannot read property 'login' of undefined"),
     Samples.emptyWorld).
Proof.
  apply (logMissingSubmissions_throws
           [Samples.alices; Samples.anonymous; Samples.bobs] Samples.roster
           Samples.emptyWorld).
  - simpl. lia.
  - apply Exists_cons_tl, Exists_cons_hd. reflexivity.
Defined.

(** X11.  When the counts differ although every roster student is among
    the authors (more submissions than students), the reporter still
    prints its line, with no name on it. *)
Theorem logMissingSubmissions_empty_line (submissions : list GithubPR)
    (students : list Student) (authors : list string) (w : World)
    (Hcount : length submissions <> length students)
    (Hauthors : map user submissions
                = map (fun l => Some {| login := l |}) authors)
    (Hall : forall student, In student students -> username student ∈ authors) :
  logMissingSubmissions submissions students w
  = (Normal tt, emit (ConsoleLog (Str "Missing submissions from: ")) w).
Proof.
  rewrite (logMissingSubmissions_prints _ _ _ _ Hcount Hauthors).
  now rewrite (missingStudents_nil _ _ Hall).
Qed.

Lemma logMissingSubmissions_empty_line_witness :
  logMissingSubmissions [Samples.alices; Samples.alicesSecond; Samples.bobs]
    Samples.roster Samples.emptyWorld
  = (Normal tt,
     {| fs := ∅; trace := [ConsoleLog (Str "Missing submissions from: ")] |}).
Proof.
  apply (logMissingSubmissions_empty_line
           [Samples.alices; Samples.alicesSecond; Samples.bobs] Samples.roster
           ["a1"; "a1"; "b1"] Samples.emptyWorld).
  - simpl. lia.
  - reflexivity.
  - intros student [<- | [<- | []]]; simpl;
      rewrite !elem_of_cons; tauto.
Defined.

(** ** Repository materializer *)

Section MaterializerMore.

Variable host : Host.
Variables repoName hostName : string.
Variable students : list Student.

(** The loop adds at most one event per submission, each the start of a
    clone or a printed line, and it never ends the process. *)
Lemma forEach_clone_events (submissions : list GithubPR) (w : World) :
  exists l,
    trace (snd (forEach submissions
                  (cloneSubmission host repoName hostName
                     (buildStudentLookup students)) w))
    = trace w ++ l
    /\ forallb isSpawnOrLog l = true
    /\ length l <= length submissions
    /\ fst (forEach submissions
              (cloneSubmission host repoName hostName
                 (buildStudentLookup students)) w) <> Halt.
Proof.
  revert w. induction submissions as [|submission rest IH]; intros w.
  - exists []. simpl. rewrite app_nil_r. repeat split; [lia | discriminate].
  - simpl. unfold bind.
    destruct (user submission) as [u|] eqn:Hu.
    + destruct (cloneSubmission_processed host repoName hostName students
                  submission w) as (e & w1 & Hstep & Htrace & Hp & _);
        [now exists u |].
      rewrite Hstep. destruct (IH w1) as (l & Hl & Hall & Hlen & Hhalt).
      exists (e :: l). rewrite Hl, Htrace, <- app_assoc.
      split; [reflexivity |]. split; [| split; [simpl; lia | exact Hhalt]].
      simpl. rewrite Hall, andb_true_r.
      destruct Hp as [-> | [-> | (v & _ & ->)]]; reflexivity.
    + rewrite (cloneSubmission_absent _ _ _ _ _ _ Hu). exists []. simpl.
      rewrite app_nil_r. repeat split; [lia | discriminate].
Qed.

(** The loop leaves on disk whatever was there, provided the children do. *)
Lemma forEach_clone_keeps_paths (submissions : list GithubPR) (w : World) :
  (forall command paths, paths ⊆ childProgress host command paths) ->
  fs w ⊆ fs (snd (forEach submissions
                    (cloneSubmission host repoName hostName
                       (buildStudentLookup students)) w)).
Proof.
  intros Hgrow. revert w.
  induction submissions as [|submission rest IH]; intros w; [reflexivity |].
  simpl. unfold bind.
  destruct (user submission) as [u|] eqn:Hu.
  - destruct (decide (destination repoName students submission ∈ fs w))
      as [Hd|Hd].
    + rewrite (cloneSubmission_skips _ _ _ _ _ _ _ Hu Hd). apply (IH (emit _ w)).
    + destruct (spawnFailure host
                  (cloneCommand repoName hostName students submission))
        as [v|] eqn:Hs.
      * rewrite (cloneSubmission_logs _ _ _ _ _ _ _ _ Hu Hd Hs).
        apply (IH (emit _ w)).
      * rewrite (cloneSubmission_spawns _ _ _ _ _ _ _ Hu Hd Hs).
        set (w1 := {| fs := childProgress host _ (fs w); trace := _ |}).
        transitivity (fs w1); [apply Hgrow | apply IH].
  - now rewrite (cloneSubmission_absent _ _ _ _ _ _ Hu).
Qed.

End MaterializerMore.

(** X12.  What [cloneRepositories] adds to the trace: first the creation
    of the target directory, if it was absent and could be created; then
    at most one event per submission, each the start of a clone or a
    printed line.  It issues no request and never ends the process. *)
Theorem cloneRepositories_events (host : Host) (repoName hostName : string)
    (submissions : list GithubPR) (students : list Student) (w : World) :
  exists l,
    trace (snd (cloneRepositories host repoName hostName submissions students w))
    = trace w ++ directoryEvents host repoName w ++ l
    /\ forallb isSpawnOrLog l = true
    /\ length l <= length submissions
    /\ fst (cloneRepositories host repoName hostName submissions students w)
       <> Halt.
Proof.
  rewrite cloneRepositories_unfold. unfold directoryEvents.
  destruct (bool_decide (repoName ∈ fs w)).
  - apply forEach_clone_events.
  - destruct (mkdirFailure host repoName) as [v|].
    + exists []. simpl. rewrite app_nil_r. repeat split; [lia | discriminate].
    + destruct (forEach_clone_events host repoName hostName students submissions
                  {| fs := {[repoName]} ∪ fs w;
                     trace := trace w ++ [Mkdir repoName] |})
        as (l & Hl & Hall & Hlen & Hhalt).
      exists l. rewrite Hl. simpl. rewrite <- app_assoc. auto.
Qed.

(** X13.  A submission whose author the roster does not know throws
    nothing: the lookup yields [undefined], and the submission is cloned
    into the folder [<repoName>/undefined], or skipped if that folder
    exists. *)
Theorem cloneSubmission_unknown_author (host : Host)
    (repoName hostName : string) (students : list Student)
    (submission : GithubPR) (u : User) (w : World)
    (Huser : user submission = Some u)
    (Hunknown : login u ∉ rosterUsernames students)
    (Hordinary : login u ∉ ObjectPrototypeKeys) :
  cloneSubmission host repoName hostName (buildStudentLookup students)
    submission w
  = if bool_decide ((repoName +:+ "/undefined") ∈ fs w)
    then (Normal tt,
          emit (ConsoleLog
                  (Str "Folder already exists for undefined. Skipping...")) w)
    else tryCatch
           (spawn host ("git clone git@" +:+ hostName +:+ ":"
                          +:+ full_name (repo (base submission)) +:+ ".git "
                          +:+ repoName +:+ "/undefined"))
           (fun err => console_log err) w.
Proof.
  assert (Hn : studentNameOf students submission = Undefined).
  { unfold studentNameOf, resolvedUsername, getProperty.
    rewrite Huser, buildStudentLookup_lookup.
    assert (Hnone : rosterName students (login u) = None).
    { destruct (rosterName students (login u)) eqn:E; [| reflexivity].
      contradiction Hunknown. apply rosterName_is_Some. rewrite E.
      now eexists. }
    rewrite Hnone. destruct (decide _); now rewrite (bool_decide_eq_false_2 _ Hordinary). }
  destruct (bool_decide ((repoName +:+ "/undefined") ∈ fs w)) eqn:Hd.
  - apply bool_decide_eq_true_1 in Hd.
    rewrite (cloneSubmission_skips host repoName hostName students submission u w Huser).
    + unfold skipNotice. rewrite Hn. reflexivity.
    + unfold destination. rewrite Hn. exact Hd.
  - apply bool_decide_eq_false_1 in Hd.
    rewrite (cloneSubmission_attempts host repoName hostName students submission u w Huser).
    + unfold cloneCommand, destination. rewrite Hn. reflexivity.
    + unfold destination. rewrite Hn. exact Hd.
Qed.

Lemma cloneSubmission_unknown_author_witness :
  cloneSubmission (Samples.calmHost []) "hw1" "github.com"
    (buildStudentLookup Samples.roster) MoreSamples.outsiders Samples.emptyWorld
  = (Normal tt,
     {| fs := ∅;
        trace := [Spawn "git clone git@github.com:org/hw1.git hw1/undefined"] |}).
Proof.
  rewrite (cloneSubmission_unknown_author (Samples.calmHost []) "hw1"
             "github.com" Samples.roster MoreSamples.outsiders
             {| login := "zed" |} Samples.emptyWorld eq_refl).
  - reflexivity.
  - unfold rosterUsernames. simpl. rewrite !elem_of_cons, elem_of_nil.
    intros [H | [H | H]]; [discriminate | discriminate | exact H].
  - unfold ObjectPrototypeKeys. rewrite !elem_of_cons, elem_of_nil.
    intros H. repeat (destruct H as [H | H]; [discriminate |]). exact H.
Defined.

(** X14.  The folder is named by the display name alone: two roster
    students with the same display name [n], neither of them listed under
    the username [__proto__] (for which the lookup stores no entry), have
    the same destination [<repoName>/<n>], and once that folder exists the
    submission of either is skipped with the notice for [n], whoever the
    folder was made for. *)
Theorem cloneSubmission_shared_display_name (host : Host)
    (repoName hostName : string) (students : list Student)
    (submission1 submission2 : GithubPR) (u1 u2 : User) (n : string) (w : World)
    (Huser1 : user submission1 = Some u1)
    (Huser2 : user submission2 = Some u2)
    (Hproto1 : login u1 <> "__proto__")
    (Hproto2 : login u2 <> "__proto__")
    (Hname1 : rosterName students (login u1) = Some n)
    (Hname2 : rosterName students (login u2) = Some n) :
  destination repoName students submission1 = repoName +:+ "/" +:+ n
  /\ destination repoName students submission2 = repoName +:+ "/" +:+ n
  /\ ((repoName +:+ "/" +:+ n) ∈ fs w ->
      forall submission,
        submission = submission1 \/ submission = submission2 ->
        cloneSubmission host repoName hostName (buildStudentLookup students)
          submission w
        = (Normal tt,
           emit (ConsoleLog (Str ("Folder already exists for " +:+ n
                                    +:+ ". Skipping...")))
                w)).
Proof.
  assert (Hn : forall submission u,
             user submission = Some u -> login u <> "__proto__" ->
             rosterName students (login u) = Some n ->
             studentNameOf students submission = OwnValue n).
  { intros submission u Hu Hp Hr. unfold studentNameOf, resolvedUsername.
    rewrite Hu. now apply getProperty_roster. }
  unfold destination.
  rewrite (Hn _ _ Huser1 Hproto1 Hname1), (Hn _ _ Huser2 Hproto2 Hname2).
  split; [reflexivity |]. split; [reflexivity |].
  intros Hd submission [-> | ->].
  - rewrite (cloneSubmission_skips host repoName hostName students submission1 u1 w Huser1).
    + unfold skipNotice. now rewrite (Hn _ _ Huser1 Hproto1 Hname1).
    + unfold destination. now rewrite (Hn _ _ Huser1 Hproto1 Hname1).
  - rewrite (cloneSubmission_skips host repoName hostName students submission2 u2 w Huser2).
    + unfold skipNotice. now rewrite (Hn _ _ Huser2 Hproto2 Hname2).
    + unfold destination. now rewrite (Hn _ _ Huser2 Hproto2 Hname2).
Qed.

Lemma cloneSubmission_shared_display_name_witness :
  destination "hw1" [MoreSamples.sam1; MoreSamples.sam2] MoreSamples.sams1
  = destination "hw1" [MoreSamples.sam1; MoreSamples.sam2] MoreSamples.sams2
  /\ cloneSubmission (Samples.calmHost []) "hw1" "github.com"
       (buildStudentLookup [MoreSamples.sam1; MoreSamples.sam2])
       MoreSamples.sams2 {| fs := {["hw1"; "hw1/Sam"]}; trace := [] |}
     = (Normal tt,
        {| fs := {["hw1"; "hw1/Sam"]};
           trace := [ConsoleLog (Str "Folder already exists for Sam. Skipping...")] |}).
Proof.
  destruct (cloneSubmission_shared_display_name (Samples.calmHost []) "hw1"
              "github.com" [MoreSamples.sam1; MoreSamples.sam2]
              MoreSamples.sams1 MoreSamples.sams2
              {| login := "s1" |} {| login := "s2" |} "Sam"
              {| fs := {["hw1"; "hw1/Sam"]}; trace := [] |}
              eq_refl eq_refl)
    as (H1 & H2 & Hskip); try discriminate; try reflexivity.
  split; [now rewrite H1, H2 |].
  apply Hskip; [| now right]. apply (bool_decide_unpack _). vm_compute. exact I.
Defined.

(** X15.  On a platform whose children only add to the disk, whatever
    existed before [cloneRepositories] exists after it, and after a
    normal return the target directory exists. *)
Theorem cloneRepositories_keeps_paths (host : Host)
    (repoName hostName : string) (submissions : list GithubPR)
    (students : list Student) (w : World)
    (Hgrow : forall command paths, paths ⊆ childProgress host command paths) :
  fs w ⊆ fs (snd (cloneRepositories host repoName hostName submissions
                    students w))
  /\ (fst (cloneRepositories host repoName hostName submissions students w)
      = Normal tt ->
      repoName ∈ fs (snd (cloneRepositories host repoName hostName submissions
                            students w))).
Proof.
  rewrite cloneRepositories_unfold.
  destruct (bool_decide (repoName ∈ fs w)) eqn:Hd.
  - apply bool_decide_eq_true_1 in Hd.
    pose proof (forEach_clone_keeps_paths host repoName hostName students
                  submissions w Hgrow) as Hsub.
    split; [exact Hsub | intros _; now apply Hsub].
  - destruct (mkdirFailure host repoName) as [v|].
    + split; [reflexivity | discriminate].
    + pose proof (forEach_clone_keeps_paths host repoName hostName students
                    submissions
                    {| fs := {[repoName]} ∪ fs w;
                       trace := trace w ++ [Mkdir repoName] |} Hgrow) as Hsub.
      simpl in Hsub. split.
      * transitivity ({[repoName]} ∪ fs w); [apply union_subseteq_r | exact Hsub].
      * intros _. apply Hsub, elem_of_union_l, elem_of_singleton. reflexivity.
Qed.

Lemma cloneRepositories_keeps_paths_witness :
  "hw1" ∈ fs (snd (cloneRepositories (Samples.eagerHost []) "hw1" "github.com"
                     [Samples.alices; Samples.bobs] Samples.roster
                     Samples.emptyWorld)).
Proof.
  apply (cloneRepositories_keeps_paths (Samples.eagerHost []) "hw1"
           "github.com" [Samples.alices; Samples.bobs] Samples.roster
           Samples.emptyWorld).
  - intros command paths. simpl.
    destruct (String.eqb command _); [apply union_subseteq_r | reflexivity].
  - vm_compute. reflexivity.
Defined.

(** ** Kinds of events a computation adds *)

Create HintDb emits.

Lemma Emits_ret {A} (P : Event -> bool) (a : A) : Emits P (ret a).
Proof. intros w. exists []. simpl. now rewrite app_nil_r. Qed.

Lemma Emits_throw {A} (P : Event -> bool) (v : Value) : Emits P (@throw A v).
Proof. intros w. exists []. simpl. now rewrite app_nil_r. Qed.

Lemma Emits_console_log (P : Event -> bool) (v : Value) :
  P (ConsoleLog v) = true -> Emits P (console_log v).
Proof. intros H w. exists [ConsoleLog v]. simpl. now rewrite H. Qed.

Lemma Emits_process_exit {A} (P : Event -> bool) :
  P ProcessExit = true -> Emits P (@process_exit A).
Proof. intros H w. exists [ProcessExit]. simpl. now rewrite H. Qed.

Lemma Emits_existsSync (P : Event -> bool) (path : string) :
  Emits P (existsSync path).
Proof. intros w. exists []. simpl. now rewrite app_nil_r. Qed.

Lemma Emits_mkdirSync (P : Event -> bool) (host : Host) (path : string) :
  P (Mkdir path) = true -> Emits P (mkdirSync host path).
Proof.
  intros H w. unfold mkdirSync. destruct (mkdirFailure host path); simpl.
  - exists []. now rewrite app_nil_r.
  - exists [Mkdir path]. simpl. now rewrite H.
Qed.

Lemma Emits_spawn (P : Event -> bool) (host : Host) (command : string) :
  P (Spawn command) = true -> Emits P (spawn host command).
Proof.
  intros H w. unfold spawn. destruct (spawnFailure host command); simpl.
  - exists []. now rewrite app_nil_r.
  - exists [Spawn command]. simpl. now rewrite H.
Qed.

Lemma Emits_bind {A B} (P : Event -> bool) (m : JS A) (k : A -> JS B) :
  Emits P m -> (forall a, Emits P (k a)) -> Emits P (bind m k).
Proof.
  intros Hm Hk w. unfold bind. destruct (Hm w) as (l1 & H1 & HP1).
  destruct (m w) as [[a | v |] w1]; simpl in H1.
  - destruct (Hk a w1) as (l2 & H2 & HP2). exists (l1 ++ l2).
    rewrite H2, H1, app_assoc, forallb_app, HP1, HP2. auto.
  - now exists l1.
  - now exists l1.
Qed.

Lemma Emits_tryCatch {A} (P : Event -> bool) (m : JS A)
    (handler : Value -> JS A) :
  Emits P m -> (forall v, Emits P (handler v)) -> Emits P (tryCatch m handler).
Proof.
  intros Hm Hh w. unfold tryCatch. destruct (Hm w) as (l1 & H1 & HP1).
  destruct (m w) as [[a | v |] w1]; simpl in H1.
  - now exists l1.
  - destruct (Hh v w1) as (l2 & H2 & HP2). exists (l1 ++ l2).
    rewrite H2, H1, app_assoc, forallb_app, HP1, HP2. auto.
  - now exists l1.
Qed.

Lemma Emits_forEach {A} (P : Event -> bool) (array : list A)
    (body : A -> JS unit) :
  (forall x, Emits P (body x)) -> Emits P (forEach array body).
Proof.
  intros H. induction array; simpl;
    [apply Emits_ret | apply Emits_bind; auto].
Qed.

Lemma Emits_weaken {A} (P Q : Event -> bool) (m : JS A) :
  (forall e, P e = true -> Q e = true) -> Emits P m -> Emits Q m.
Proof.
  intros HPQ Hm w. destruct (Hm w) as (l & Hl & HP). exists l.
  split; [exact Hl |]. apply forallb_forall. intros e He.
  apply HPQ. now apply (proj1 (forallb_forall P l) HP).
Qed.

#[local] Hint Resolve Emits_ret Emits_throw Emits_existsSync : emits.
#[local] Hint Extern 1 (Emits _ (console_log _)) =>
  apply Emits_console_log; reflexivity : emits.
#[local] Hint Extern 1 (Emits _ process_exit) =>
  apply Emits_process_exit; reflexivity : emits.
#[local] Hint Extern 1 (Emits _ (mkdirSync _ _)) =>
  apply Emits_mkdirSync; reflexivity : emits.
#[local] Hint Extern 1 (Emits _ (spawn _ _)) =>
  apply Emits_spawn; reflexivity : emits.
#[local] Hint Extern 2 (Emits _ (bind _ _)) =>
  apply Emits_bind; [| intro] : emits.
#[local] Hint Extern 2 (Emits _ (tryCatch _ _)) =>
  apply Emits_tryCatch; [| intro] : emits.
#[local] Hint Extern 2 (Emits _ (if _ then _ else _)) =>
  match goal with |- Emits _ (if ?b then _ else _) => destruct b end : emits.

Lemma Emits_user_login (P : Event -> bool) (submission : GithubPR) :
  Emits P (user_login submission).
Proof. unfold user_login. destruct (user submission); auto with emits. Qed.

Lemma Emits_cloneRepositories (host : Host) (repoName hostName : string)
    (submissions : list GithubPR) (students : list Student) :
  Emits (fun e => touchesDisk e || isSpawnOrLog e)
        (cloneRepositories host repoName hostName submissions students).
Proof.
  unfold cloneRepositories. apply Emits_bind; [auto with emits | intros present].
  apply Emits_bind; [auto with emits | intros _].
  apply Emits_forEach. intros submission.
  unfold cloneSubmission, spawnProcess.
  apply Emits_bind; [apply Emits_user_login | intros l].
  auto 8 with emits.
Qed.

Lemma Emits_mapLogins (P : Event -> bool) (submissions : list GithubPR) :
  Emits P (mapLogins submissions).
Proof.
  induction submissions; simpl; [apply Emits_ret |].
  apply Emits_bind; [apply Emits_user_login | intros l].
  apply Emits_bind; [assumption | intros ls; apply Emits_ret].
Qed.

Lemma Emits_logMissingSubmissions (submissions : list GithubPR)
    (students : list Student) :
  Emits isSpawnOrLog (logMissingSubmissions submissions students).
Proof.
  unfold logMissingSubmissions. destruct (negb _); [| apply Emits_ret].
  apply Emits_bind; [apply Emits_mapLogins | intros l; auto with emits].
Qed.

Lemma Emits_logAndExit (v : Value) :
  Emits (fun e => negb (touchesDisk e) && negb (isRequest e)) (logAndExit v).
Proof. unfold logAndExit. auto with emits. Qed.

(** ** Pull-request fetcher: the world after the headers *)

Section FetcherMore.

Variable host : Host.
Variables cfgUsername orgName repoName hostName githubToken : string.

Local Abbreviation options :=
  (xhrOptions cfgUsername orgName repoName hostName githubToken).
Local Abbreviation fetch :=
  (xhr host cfgUsername orgName repoName hostName githubToken).

Lemma notifyIfTokenExpiresSoon_world (date : option string) (w : World) :
  snd (notifyIfTokenExpiresSoon host date w)
  = {| fs := fs w; trace := trace w ++ warningEvents host date |}.
Proof.
  rewrite notifyIfTokenExpiresSoon_total. unfold warningEvents.
  destruct (SFltb _ _); simpl; [reflexivity |].
  rewrite app_nil_r. now destruct w.
Qed.

Lemma xhr_after_headers (statusCode : Z) (expiry : option string)
    (outcome : BodyOutcome) (w : World) :
  exchange host options = Responded statusCode expiry outcome ->
  fetch w
  = match outcome with
    | Ended data =>
        onEnd host orgName repoName (fold_left String.append data "")
    | Errored err =>
        throw (Str ("Failed XHR, status code: " +:+ pretty statusCode
                      +:+ " " +:+ newline +:+ " " +:+ err))
    end (afterHeaders host options expiry w).
Proof.
  intros H. rewrite (xhr_responded _ _ _ _ _ _ _ _ _ _ H).
  rewrite notifyIfTokenExpiresSoon_world. unfold afterHeaders. simpl.
  now rewrite <- app_assoc.
Qed.

Lemma xhr_request_failed (err : Value) (w : World) :
  exchange host options = RequestFailed err ->
  fetch w = (Halt, emit (UncaughtException err) (emit (HttpGet options) w)).
Proof. intros H. unfold xhr, bind. now rewrite H. Qed.

End FetcherMore.

(** ** Entry point: what [main] does with the outcome of the fetch *)

Section MainMore.

Variable host : Host.
Variable cfg : config.t.

Local Abbreviation fetchFor repoName :=
  (xhr host (config.username cfg) (config.orgName cfg) repoName
     (config.hostName cfg) (config.githubToken cfg)).

Lemma main_invalid (argv : list string) (msg : string) (w : World) :
  error (validateRepoName (argv !! CliArgs.RepoName)) = Some msg ->
  main host cfg argv w
  = (Halt, emit ProcessExit (emit (ConsoleLog (Str msg)) w)).
Proof. intros H. unfold main. rewrite H. reflexivity. Qed.

Lemma main_cases (argv : list string) (repoName : string) (w : World) :
  argv !! CliArgs.RepoName = Some repoName ->
  error (validateRepoName (Some repoName)) = None ->
  main host cfg argv w
  = match fetchFor repoName w with
    | (Normal (ParsedArray pullRequests), w1) =>
        tryCatch
          (cloneRepositories host repoName (config.hostName cfg)
             (filterStudentsPullRequests pullRequests (config.students cfg))
             (config.students cfg) ;;
           logMissingSubmissions
             (filterStudentsPullRequests pullRequests (config.students cfg))
             (config.students cfg))
          logAndExit w1
    | (Normal _, w1) =>
        logAndExit (TypeError "pullRequests is not iterable") w1
    | (Throw v, w1) => logAndExit v w1
    | (Halt, w1) => (Halt, w1)
    end.
Proof.
  intros Hargv Hvalid. unfold main. rewrite Hargv, Hvalid.
  unfold tryCatch, bind at 1 2. unfold ret at 1.
  destruct (xhr host _ _ _ _ _ w) as [[[items | keys |] | v |] w1];
    reflexivity.
Qed.

Lemma logAndExit_halts (v : Value) (w : World) :
  logAndExit v w = (Halt, emit ProcessExit (emit (ConsoleLog v) w)).
Proof. reflexivity. Qed.

End MainMore.

Section MainFacts.

Variable host : Host.
Variable cfg : config.t.

(** The fetch records its request first; whatever else it adds is neither
    a request nor an action on the disk, and the disk stays as it was. *)
Lemma xhr_request_then_quiet (cfgUsername orgName repoName hostName
    githubToken : string) (w : World) :
  exists l,
    trace (snd (xhr host cfgUsername orgName repoName hostName githubToken w))
    = trace w
      ++ HttpGet (xhrOptions cfgUsername orgName repoName hostName githubToken)
      :: l
    /\ forallb (fun e => negb (touchesDisk e) && negb (isRequest e)) l = true
    /\ fs (snd (xhr host cfgUsername orgName repoName hostName githubToken w))
       = fs w.
Proof.
  destruct (exchange host
              (xhrOptions cfgUsername orgName repoName hostName githubToken))
    as [statusCode expiry outcome | err] eqn:Hx.
  - rewrite (xhr_after_headers _ _ _ _ _ _ _ _ _ _ Hx).
    assert (Hw : forallb (fun e => negb (touchesDisk e) && negb (isRequest e))
                         (warningEvents host expiry) = true).
    { unfold warningEvents. now destruct (SFltb _ _). }
    destruct outcome as [data | err].
    + unfold onEnd. destruct (JSON_parse host _) as [response|].
      * destruct (messageIn response) as [[|]|]; simpl.
        -- exists (warningEvents host expiry). auto.
        -- exists (warningEvents host expiry). auto.
        -- eexists (warningEvents host expiry ++ [_]).
           rewrite <- app_assoc. simpl. split; [reflexivity |].
           rewrite forallb_app, Hw. auto.
      * simpl. eexists (warningEvents host expiry ++ [_]).
        rewrite <- app_assoc. simpl. split; [reflexivity |].
        rewrite forallb_app, Hw. auto.
    + simpl. exists (warningEvents host expiry). auto.
  - rewrite (xhr_request_failed _ _ _ _ _ _ _ _ Hx). simpl.
    exists [UncaughtException err]. rewrite <- app_assoc. auto.
Qed.

Lemma tryCatch_not_thrown {A} (m : JS A) (handler : Value -> JS A) (w : World) :
  (forall v, fst (m w) <> Throw v) -> tryCatch m handler w = m w.
Proof.
  intros H. unfold tryCatch. destruct (m w) as [[a | v |] w1]; try reflexivity.
  now contradiction (H v).
Qed.

Lemma bind_never_halts {A B} (m : JS A) (k : A -> JS B) (w : World) :
  fst (m w) <> Halt -> (forall a w1, fst (k a w1) <> Halt) ->
  fst (bind m k w) <> Halt.
Proof.
  intros Hm Hk. unfold bind. destruct (m w) as [[a | v |] w1]; simpl in *;
    [apply Hk | discriminate | contradiction].
Qed.

Lemma cloneRepositories_never_halts (repoName hostName : string)
    (submissions : list GithubPR) (students : list Student) (w : World) :
  fst (cloneRepositories host repoName hostName submissions students w) <> Halt.
Proof.
  rewrite cloneRepositories_unfold.
  destruct (bool_decide (repoName ∈ fs w)).
  - destruct (forEach_clone_events host repoName hostName students
                submissions w) as (_ & _ & _ & _ & H). exact H.
  - destruct (mkdirFailure host repoName); [discriminate |].
    destruct (forEach_clone_events host repoName hostName students submissions
                {| fs := {[repoName]} ∪ fs w;
                   trace := trace w ++ [Mkdir repoName] |})
      as (_ & _ & _ & _ & H). exact H.
Qed.

Lemma mapLogins_never_halts (submissions : list GithubPR) (w : World) :
  fst (mapLogins submissions w) <> Halt.
Proof.
  revert w. induction submissions as [|s rest IH]; intros w; [discriminate |].
  simpl. apply bind_never_halts.
  - unfold user_login. destruct (user s); discriminate.
  - intros l w1. apply bind_never_halts; [apply IH | discriminate].
Qed.

Lemma logMissingSubmissions_never_halts (submissions : list GithubPR)
    (students : list Student) (w : World) :
  fst (logMissingSubmissions submissions students w) <> Halt.
Proof.
  unfold logMissingSubmissions. destruct (negb _); [| discriminate].
  apply bind_never_halts; [apply mapLogins_never_halts | discriminate].
Qed.

(** The materializer and the reporter, one after the other, as [main] runs
    them. *)
Lemma pipeline_never_halts (repoName : string) (submissions : list GithubPR)
    (w : World) :
  fst ((cloneRepositories host repoName (config.hostName cfg) submissions
          (config.students cfg) ;;
        logMissingSubmissions submissions (config.students cfg)) w) <> Halt.
Proof.
  apply bind_never_halts; [apply cloneRepositories_never_halts |].
  intros _ w1. apply logMissingSubmissions_never_halts.
Qed.

Lemma Emits_pipeline (repoName : string) (submissions : list GithubPR) :
  Emits (fun e => touchesDisk e || isSpawnOrLog e)
        (cloneRepositories host repoName (config.hostName cfg) submissions
           (config.students cfg) ;;
         logMissingSubmissions submissions (config.students cfg)).
Proof.
  apply Emits_bind; [apply Emits_cloneRepositories | intros _].
  apply (Emits_weaken isSpawnOrLog); [| apply Emits_logMissingSubmissions].
  intros e H. rewrite H. apply orb_true_r.
Qed.

End MainFacts.

(** X16.  No exception escapes [main]: it returns normally or the process
    ends, whatever the arguments, the response and the disk. *)
Theorem main_never_throws (host : Host) (cfg : config.t) (argv : list string)
    (w : World) (v : Value) :
  fst (main host cfg argv w) <> Throw v.
Proof.
  destruct (error (validateRepoName (argv !! CliArgs.RepoName))) as [msg|] eqn:Hv.
  - rewrite (main_invalid _ _ _ _ _ Hv). discriminate.
  - pose proof Hv as Hname.
    apply validateRepoName_ok in Hname as (c & rest & Hargv & _).
    rewrite Hargv in Hv. rewrite (main_cases _ _ _ _ _ Hargv Hv).
    destruct (xhr host _ _ _ _ _ w) as [[[items | keys |] | e |] w1];
      try (rewrite logAndExit_halts); try discriminate.
    unfold tryCatch.
    destruct ((cloneRepositories _ _ _ _ _ ;; logMissingSubmissions _ _) w1)
      as [[[] | e |] w2]; try (rewrite logAndExit_halts); discriminate.
Qed.

(** X17.  What the fetch adds to the trace, in order: its one request;
    the token warning, or nothing; an uncaught exception, or nothing.  The
    process ends in the fetch exactly when there is such an exception, and
    the disk is left as it was. *)
Theorem xhr_trace_shape (host : Host)
    (cfgUsername orgName repoName hostName githubToken : string) (w : World) :
  exists warning ending,
    trace (snd (xhr host cfgUsername orgName repoName hostName githubToken w))
    = trace w
      ++ HttpGet (xhrOptions cfgUsername orgName repoName hostName githubToken)
      :: warning ++ ending
    /\ (warning = [] \/ warning = [ConsoleLog tokenWarning])
    /\ (ending = [] \/ exists v, ending = [UncaughtException v])
    /\ (fst (xhr host cfgUsername orgName repoName hostName githubToken w) = Halt
        <-> ending <> [])
    /\ fs (snd (xhr host cfgUsername orgName repoName hostName githubToken w))
       = fs w.
Proof.
  destruct (exchange host
              (xhrOptions cfgUsername orgName repoName hostName githubToken))
    as [statusCode expiry outcome | err] eqn:Hx.
  - rewrite (xhr_after_headers _ _ _ _ _ _ _ _ _ _ Hx).
    exists (warningEvents host expiry).
    assert (Hw : warningEvents host expiry = []
                 \/ warningEvents host expiry = [ConsoleLog tokenWarning]).
    { unfold warningEvents. destruct (SFltb _ _); auto. }
    assert (Hquiet : forall (r : Completion Parsed),
               r <> Halt ->
               exists ending,
                 trace (afterHeaders host
                          (xhrOptions cfgUsername orgName repoName hostName
                             githubToken) expiry w)
                 = trace w
                   ++ HttpGet (xhrOptions cfgUsername orgName repoName hostName
                                 githubToken)
                   :: warningEvents host expiry ++ ending
                 /\ (warningEvents host expiry = []
                     \/ warningEvents host expiry = [ConsoleLog tokenWarning])
                 /\ (ending = [] \/ exists v, ending = [UncaughtException v])
                 /\ (r = Halt <-> ending <> [])
                 /\ fs w = fs w).
    { intros r Hr. exists []. simpl. rewrite app_nil_r.
      repeat split; auto; intros H; contradiction. }
    assert (Hloud : forall v,
               exists ending,
                 trace (emit (UncaughtException v)
                          (afterHeaders host
                             (xhrOptions cfgUsername orgName repoName hostName
                                githubToken) expiry w))
                 = trace w
                   ++ HttpGet (xhrOptions cfgUsername orgName repoName hostName
                                 githubToken)
                   :: warningEvents host expiry ++ ending
                 /\ (warningEvents host expiry = []
                     \/ warningEvents host expiry = [ConsoleLog tokenWarning])
                 /\ (ending = [] \/ exists v, ending = [UncaughtException v])
                 /\ (@Halt Parsed = Halt <-> ending <> [])
                 /\ fs w = fs w).
    { intros v. exists [UncaughtException v]. simpl. rewrite <- app_assoc.
      repeat split; eauto; discriminate. }
    destruct outcome as [data | err].
    + unfold onEnd. destruct (JSON_parse host _) as [response|].
      * destruct (messageIn response) as [[|]|]; simpl;
          [apply Hquiet; discriminate | apply Hquiet; discriminate | apply Hloud].
      * apply Hloud.
    + simpl. apply Hquiet. discriminate.
  - rewrite (xhr_request_failed _ _ _ _ _ _ _ _ Hx). simpl.
    exists [], [UncaughtException err]. rewrite <- app_assoc. simpl.
    repeat split; eauto; discriminate.
Qed.

(** X18.  [main] issues exactly one request when the repository name is
    valid and none when it is not; nothing is retried, whatever the
    response. *)
Theorem main_request_count (host : Host) (cfg : config.t) (argv : list string)
    (w : World) :
  exists l,
    trace (snd (main host cfg argv w)) = trace w ++ l
    /\ length (List.filter isRequest l)
       = match error (validateRepoName (argv !! CliArgs.RepoName)) with
         | None => 1
         | Some _ => 0
         end.
Proof.
  destruct (error (validateRepoName (argv !! CliArgs.RepoName))) as [msg|] eqn:Hv.
  - rewrite (main_invalid _ _ _ _ _ Hv).
    exists [ConsoleLog (Str msg); ProcessExit]. simpl.
    now rewrite <- app_assoc.
  - pose proof Hv as Hname.
    apply validateRepoName_ok in Hname as (c & rest & Hargv & _).
    rewrite Hargv in Hv. rewrite (main_cases _ _ _ _ _ Hargv Hv).
    destruct (xhr_request_then_quiet host (config.username cfg)
                (config.orgName cfg) (String c rest) (config.hostName cfg)
                (config.githubToken cfg) w) as (l1 & Hl1 & Hq1 & _).
    assert (Hcount : forall l2,
               forallb (fun e => negb (isRequest e)) l2 = true ->
               length (List.filter isRequest
                         (HttpGet (xhrOptions (config.username cfg)
                                     (config.orgName cfg) (String c rest)
                                     (config.hostName cfg)
                                     (config.githubToken cfg))
                          :: l1 ++ l2)) = 1).
    { intros l2 H2. simpl. f_equal.
      assert (H12 : forallb (fun e => negb (isRequest e)) (l1 ++ l2) = true).
      { rewrite forallb_app, H2, andb_true_r. apply forallb_forall.
        intros e He. apply (proj1 (forallb_forall _ _) Hq1) in He.
        now apply andb_true_iff in He as [_ He]. }
      clear -H12. induction (l1 ++ l2) as [|e l IH]; [reflexivity |].
      simpl in *. apply andb_true_iff in H12 as [He Hl].
      destruct (isRequest e); [discriminate | auto]. }
    assert (Hexit : forall v,
               exists l2,
                 trace (snd (logAndExit v (snd (xhr host (config.username cfg)
                     (config.orgName cfg) (String c rest) (config.hostName cfg)
                     (config.githubToken cfg) w))))
                 = trace (snd (xhr host (config.username cfg)
                     (config.orgName cfg) (String c rest) (config.hostName cfg)
                     (config.githubToken cfg) w)) ++ l2
                 /\ forallb (fun e => negb (isRequest e)) l2 = true).
    { intros v. exists [ConsoleLog v; ProcessExit]. simpl.
      now rewrite <- app_assoc. }
    destruct (xhr host _ _ _ _ _ w) as [[[items | keys |] | e |] w1];
      cbn [snd fst] in Hl1, Hexit |- *.
    + assert (Hp : Emits (fun e => negb (isRequest e))
                     (tryCatch
                        (cloneRepositories host (String c rest)
                           (config.hostName cfg)
                           (filterStudentsPullRequests items (config.students cfg))
                           (config.students cfg) ;;
                         logMissingSubmissions
                           (filterStudentsPullRequests items (config.students cfg))
                           (config.students cfg))
                        logAndExit)).
      { apply Emits_tryCatch.
        - apply (Emits_weaken (fun e => touchesDisk e || isSpawnOrLog e));
            [| apply Emits_pipeline].
          intros [] H; try reflexivity; discriminate.
        - intros v. apply (Emits_weaken _ _ _ ltac:(intros e' H;
            apply andb_true_iff in H as [_ H]; exact H) (Emits_logAndExit v)). }
      destruct (Hp w1) as (l2 & Hl2 & Hq2).
      exists (HttpGet (xhrOptions (config.username cfg) (config.orgName cfg)
                         (String c rest) (config.hostName cfg)
                         (config.githubToken cfg)) :: l1 ++ l2).
      split; [| now apply Hcount].
      rewrite Hl2, Hl1, <- app_assoc. reflexivity.
    + destruct (Hexit (TypeError "pullRequests is not iterable"))
        as (l2 & Hl2 & Hq2).
      eexists (_ :: l1 ++ l2). split; [| now apply Hcount].
      rewrite Hl2, Hl1, <- app_assoc. reflexivity.
    + destruct (Hexit (TypeError "pullRequests is not iterable"))
        as (l2 & Hl2 & Hq2).
      eexists (_ :: l1 ++ l2). split; [| now apply Hcount].
      rewrite Hl2, Hl1, <- app_assoc. reflexivity.
    + destruct (Hexit e) as (l2 & Hl2 & Hq2).
      eexists (_ :: l1 ++ l2). split; [| now apply Hcount].
      rewrite Hl2, Hl1, <- app_assoc. reflexivity.
    + eexists (_ :: l1 ++ []). split; [| now apply Hcount].
      simpl. rewrite Hl1, app_nil_r. reflexivity.
Qed.

(** X19.  [main] creates no directory and starts no clone unless the
    fetch has resolved with a list: in every other run the disk is what it
    was and the trace gains no [Mkdir] and no [Spawn]. *)
Theorem main_disk_untouched_without_list (host : Host) (cfg : config.t)
    (argv : list string) (w : World)
    (Hnolist : forall repoName items,
        argv !! CliArgs.RepoName = Some repoName ->
        fst (xhr host (config.username cfg) (config.orgName cfg) repoName
               (config.hostName cfg) (config.githubToken cfg) w)
        <> Normal (ParsedArray items)) :
  fs (snd (main host cfg argv w)) = fs w
  /\ exists l,
       trace (snd (main host cfg argv w)) = trace w ++ l
       /\ forallb (fun e => negb (touchesDisk e)) l = true.
Proof.
  destruct (error (validateRepoName (argv !! CliArgs.RepoName))) as [msg|] eqn:Hv.
  - rewrite (main_invalid _ _ _ _ _ Hv). split; [reflexivity |].
    exists [ConsoleLog (Str msg); ProcessExit]. simpl. now rewrite <- app_assoc.
  - pose proof Hv as Hname.
    apply validateRepoName_ok in Hname as (c & rest & Hargv & _).
    rewrite Hargv in Hv. rewrite (main_cases _ _ _ _ _ Hargv Hv).
    pose proof (fun items => Hnolist (String c rest) items Hargv) as Hno.
    destruct (xhr_request_then_quiet host (config.username cfg)
                (config.orgName cfg) (String c rest) (config.hostName cfg)
                (config.githubToken cfg) w) as (l1 & Hl1 & Hq1 & Hfs).
    assert (Hq : forallb (fun e => negb (touchesDisk e)) l1 = true).
    { apply forallb_forall. intros e He.
      apply (proj1 (forallb_forall _ _) Hq1) in He.
      now apply andb_true_iff in He as [He _]. }
    destruct (xhr host _ _ _ _ _ w) as [[[items | keys |] | e |] w1];
      cbn [snd fst] in Hl1, Hfs, Hno |- *.
    + now contradiction (Hno items).
    + rewrite logAndExit_halts. simpl. split; [exact Hfs |].
      eexists (_ :: l1 ++ [_; _]). rewrite Hl1, <- !app_assoc. simpl.
      split; [reflexivity |]. rewrite forallb_app, Hq. reflexivity.
    + rewrite logAndExit_halts. simpl. split; [exact Hfs |].
      eexists (_ :: l1 ++ [_; _]). rewrite Hl1, <- !app_assoc. simpl.
      split; [reflexivity |]. rewrite forallb_app, Hq. reflexivity.
    + rewrite logAndExit_halts. simpl. split; [exact Hfs |].
      eexists (_ :: l1 ++ [_; _]). rewrite Hl1, <- !app_assoc. simpl.
      split; [reflexivity |]. rewrite forallb_app, Hq. reflexivity.
    + split; [exact Hfs |]. eexists (_ :: l1). split; [exact Hl1 | exact Hq].
Qed.

Lemma main_disk_untouched_without_list_witness :
  fs (snd (main Samples.errorHost Samples.cfg ["node"; "cloneHw.js"; "hw1"]
             Samples.bobCloned))
  = fs Samples.bobCloned.
Proof.
  apply (main_disk_untouched_without_list Samples.errorHost Samples.cfg
           ["node"; "cloneHw.js"; "hw1"] Samples.bobCloned).
  intros repoName items [= <-]. vm_compute. discriminate.
Defined.

Section MainOutcomes.

Variable host : Host.
Variable cfg : config.t.
Variable argv : list string.
Variable repoName : string.
Variable w : World.

Hypothesis Hargv : argv !! CliArgs.RepoName = Some repoName.
Hypothesis Hvalid : error (validateRepoName (Some repoName)) = None.

Local Abbreviation options :=
  (xhrOptions (config.username cfg) (config.orgName cfg) repoName
     (config.hostName cfg) (config.githubToken cfg)).

(** X20.  When the body stream of the response fails, [main] prints
    [Failed XHR, status code: <code>], a newline and the error, and exits;
    nothing else happens after the request and the token check. *)
Theorem main_transport_error (statusCode : Z) (expiry : option string)
    (err : string)
    (Hresponse : exchange host options
                 = Responded statusCode expiry (Errored err)) :
  main host cfg argv w
  = (Halt,
     emit ProcessExit
       (emit (ConsoleLog
                (Str ("Failed XHR, status code: " +:+ pretty statusCode
                        +:+ " " +:+ newline +:+ " " +:+ err)))
             (afterHeaders host options expiry w))).
Proof.
  rewrite (main_cases _ _ _ _ _ Hargv Hvalid).
  rewrite (xhr_after_headers _ _ _ _ _ _ _ _ _ _ Hresponse). reflexivity.
Qed.

(** X21.  When the body is no JSON, or is JSON for [null], a number, a
    string or a boolean, the exception is thrown inside the ['end']
    handler: the process ends with an uncaught exception, and the [catch]
    of [main] prints nothing and does not exit. *)
Theorem main_uncaught_body (statusCode : Z) (expiry : option string)
    (data : list string)
    (Hresponse : exchange host options
                 = Responded statusCode expiry (Ended data))
    (Hbody : JSON_parse host (fold_left String.append data "") = None
             \/ JSON_parse host (fold_left String.append data "")
                = Some ParsedPrimitive) :
  exists v,
    main host cfg argv w
    = (Halt, emit (UncaughtException v) (afterHeaders host options expiry w)).
Proof.
  rewrite (main_cases _ _ _ _ _ Hargv Hvalid).
  rewrite (xhr_after_headers _ _ _ _ _ _ _ _ _ _ Hresponse). unfold onEnd.
  destruct Hbody as [-> | ->]; simpl; eauto.
Qed.

(** X22.  An object without a [message] property is resolved by the fetch
    as if it were the list; [main] then fails on iterating it, prints that
    [TypeError] and exits. *)
Theorem main_object_without_message (statusCode : Z) (expiry : option string)
    (data : list string) (keys : list string)
    (Hresponse : exchange host options
                 = Responded statusCode expiry (Ended data))
    (Hbody : JSON_parse host (fold_left String.append data "")
             = Some (ParsedObject keys))
    (Hmessage : "message" ∉ keys) :
  xhr host (config.username cfg) (config.orgName cfg) repoName
    (config.hostName cfg) (config.githubToken cfg) w
  = (Normal (ParsedObject keys), afterHeaders host options expiry w)
  /\ exists message,
       main host cfg argv w
       = (Halt,
          emit ProcessExit
            (emit (ConsoleLog (TypeError message))
                  (afterHeaders host options expiry w))).
Proof.
  assert (Hfetch : xhr host (config.username cfg) (config.orgName cfg) repoName
                     (config.hostName cfg) (config.githubToken cfg) w
                   = (Normal (ParsedObject keys),
                      afterHeaders host options expiry w)).
  { rewrite (xhr_after_headers _ _ _ _ _ _ _ _ _ _ Hresponse). unfold onEnd.
    rewrite Hbody, messageIn_object, (bool_decide_eq_false_2 _ Hmessage).
    reflexivity. }
  split; [exact Hfetch |].
  rewrite (main_cases _ _ _ _ _ Hargv Hvalid), Hfetch. eexists. reflexivity.
Qed.

(** X23.  When the list has been fetched but the target directory is
    absent and cannot be created, [main] prints the error of [mkdirSync]
    and exits: no submission is looked at. *)
Theorem main_mkdir_failure (statusCode : Z) (expiry : option string)
    (data : list string) (items : list GithubPR) (v : Value)
    (Hresponse : exchange host options
                 = Responded statusCode expiry (Ended data))
    (Hbody : JSON_parse host (fold_left String.append data "")
             = Some (ParsedArray items))
    (Habsent : repoName ∉ fs w)
    (Hmkdir : mkdirFailure host repoName = Some v) :
  main host cfg argv w
  = (Halt,
     emit ProcessExit
       (emit (ConsoleLog v) (afterHeaders host options expiry w))).
Proof.
  rewrite (main_cases _ _ _ _ _ Hargv Hvalid).
  rewrite (xhr_after_headers _ _ _ _ _ _ _ _ _ _ Hresponse). unfold onEnd.
  rewrite Hbody. simpl. unfold tryCatch, bind at 1.
  rewrite cloneRepositories_unfold. simpl.
  rewrite (bool_decide_eq_false_2 _ Habsent), Hmkdir. reflexivity.
Qed.

(** X24.  When the list has been fetched, every pull request in it
    carries its author and the target directory exists or can be created,
    [main] returns normally: it never calls [process.exit] and no
    exception goes uncaught. *)
Theorem main_returns_normally (statusCode : Z) (expiry : option string)
    (data : list string) (items : list GithubPR)
    (Hresponse : exchange host options
                 = Responded statusCode expiry (Ended data))
    (Hbody : JSON_parse host (fold_left String.append data "")
             = Some (ParsedArray items))
    (Hauthors : Forall (fun pullRequest => is_Some (user pullRequest)) items)
    (Hmkdir : repoName ∈ fs w \/ mkdirFailure host repoName = None) :
  fst (main host cfg argv w) = Normal tt
  /\ exists l,
       trace (snd (main host cfg argv w)) = trace w ++ l
       /\ forallb (fun e => negb (endsProcess e)) l = true.
Proof.
  rewrite (main_cases _ _ _ _ _ Hargv Hvalid).
  rewrite (xhr_after_headers _ _ _ _ _ _ _ _ _ _ Hresponse). unfold onEnd.
  rewrite Hbody. simpl.
  set (submissions := filterStudentsPullRequests items (config.students cfg)).
  set (w1 := afterHeaders host options expiry w).
  assert (Hsub : Forall (fun s => is_Some (user s)) submissions).
  { apply (Forall_sublist _ _ items); [| exact Hauthors].
    unfold submissions. rewrite filterStudentsPullRequests_spec.
    apply List_filter_sublist. }
  assert (Hnormal :
            fst ((cloneRepositories host repoName (config.hostName cfg)
                    submissions (config.students cfg) ;;
                  logMissingSubmissions submissions (config.students cfg)) w1)
            = Normal tt).
  { unfold bind. rewrite cloneRepositories_unfold.
    assert (Hloop : forall w2, exists w3,
               forEach submissions
                 (cloneSubmission host repoName (config.hostName cfg)
                    (buildStudentLookup (config.students cfg))) w2
               = (Normal tt, w3)).
    { intros w2.
      destruct (forEach_processes_all host repoName (config.hostName cfg)
                  (config.students cfg) submissions w2 Hsub)
        as (w3 & _ & H & _). eauto. }
    assert (Hlog : forall w3,
               fst (logMissingSubmissions submissions (config.students cfg) w3)
               = Normal tt).
    { intros w3.
      destruct (Nat.eq_dec (length submissions) (length (config.students cfg)))
        as [E | E].
      - unfold logMissingSubmissions. apply Nat.eqb_eq in E. now rewrite E.
      - now rewrite (logMissingSubmissions_prints _ _ _ _ E
                       (authors_of_present _ Hsub)). }
    destruct (bool_decide (repoName ∈ fs w1)) eqn:Hd.
    - destruct (Hloop w1) as [w3 ->]. apply Hlog.
    - destruct Hmkdir as [Hin | ->].
      + apply bool_decide_eq_false_1 in Hd. contradiction.
      + destruct (Hloop {| fs := {[repoName]} ∪ fs w1;
                           trace := trace w1 ++ [Mkdir repoName] |})
          as [w3 ->]. apply Hlog. }
  rewrite tryCatch_not_thrown by (intros v; rewrite Hnormal; discriminate).
  split; [exact Hnormal |].
  destruct (Emits_pipeline host cfg repoName submissions w1) as (l & Hl & Hq).
  exists (HttpGet options :: warningEvents host expiry ++ l).
  rewrite Hl. unfold w1, afterHeaders. simpl. rewrite <- app_assoc. simpl.
  split; [reflexivity |]. rewrite forallb_app. apply andb_true_iff. split.
  - unfold warningEvents. now destruct (SFltb _ _).
  - apply forallb_forall. intros e He.
    apply (proj1 (forallb_forall _ _) Hq) in He. now destruct e.
Qed.

End MainOutcomes.

(** X25.  Of the command line [main] uses the repository name and nothing
    else: the flags it parses, and every other argument, change nothing
    in the run. *)
Theorem main_uses_repoName_only (host : Host) (cfg : config.t)
    (argv argv' : list string) (w : World)
    (Hsame : argv !! CliArgs.RepoName = argv' !! CliArgs.RepoName) :
  main host cfg argv w = main host cfg argv' w.
Proof. unfold main. now rewrite Hsame. Qed.

(** Instances of the outcomes of [main]. *)

Lemma main_transport_error_witness :
  main FailingHosts.brokenStream Samples.cfg ["node"; "cloneHw.js"; "hw1"]
    Samples.emptyWorld
  = (Halt,
     {| fs := ∅;
        trace := [ HttpGet (xhrOptions "instructor" "org" "hw1" "github.com" "token");
                   ConsoleLog (Str ("Failed XHR, status code: 502 " +:+ newline
                                      +:+ " Error: aborted"));
                   ProcessExit ] |}).
Proof.
  rewrite (main_transport_error FailingHosts.brokenStream Samples.cfg
             ["node"; "cloneHw.js"; "hw1"] "hw1" Samples.emptyWorld
             eq_refl eq_refl 502 None "Error: aborted" eq_refl).
  vm_compute. reflexivity.
Defined.

Lemma main_uncaught_body_witness :
  exists v,
    main FailingHosts.htmlBody Samples.cfg ["node"; "cloneHw.js"; "hw1"]
      Samples.emptyWorld
    = (Halt,
       {| fs := ∅;
          trace := [ HttpGet (xhrOptions "instructor" "org" "hw1" "github.com" "token");
                     UncaughtException v ] |}).
Proof.
  destruct (main_uncaught_body FailingHosts.htmlBody Samples.cfg
              ["node"; "cloneHw.js"; "hw1"] "hw1" Samples.emptyWorld
              eq_refl eq_refl 200 None ["<html>"; "</html>"] eq_refl
              (or_introl eq_refl)) as [v Hv].
  exists v. rewrite Hv. reflexivity.
Defined.

Lemma main_object_without_message_witness :
  exists message,
    main FailingHosts.objectBody Samples.cfg ["node"; "cloneHw.js"; "hw1"]
      Samples.emptyWorld
    = (Halt,
       {| fs := ∅;
          trace := [ HttpGet (xhrOptions "instructor" "org" "hw1" "github.com" "token");
                     ConsoleLog (TypeError message);
                     ProcessExit ] |}).
Proof.
  destruct (main_object_without_message FailingHosts.objectBody Samples.cfg
              ["node"; "cloneHw.js"; "hw1"] "hw1" Samples.emptyWorld
              eq_refl eq_refl 200 None ["{ total: 0 }"] ["total"] eq_refl
              eq_refl) as (_ & message & Hm).
  - rewrite elem_of_cons, elem_of_nil. intros [H | H]; [discriminate | exact H].
  - exists message. rewrite Hm. reflexivity.
Defined.

Lemma main_mkdir_failure_witness :
  main (FailingHosts.readOnlyDisk [Samples.alices]) Samples.cfg
    ["node"; "cloneHw.js"; "hw1"] Samples.emptyWorld
  = (Halt,
     {| fs := ∅;
        trace := [ HttpGet (xhrOptions "instructor" "org" "hw1" "github.com" "token");
                   ConsoleLog (Err "Error" "EACCES: permission denied, mkdir");
                   ProcessExit ] |}).
Proof.
  rewrite (main_mkdir_failure (FailingHosts.readOnlyDisk [Samples.alices])
             Samples.cfg ["node"; "cloneHw.js"; "hw1"] "hw1" Samples.emptyWorld
             eq_refl eq_refl 200 None ["[...]"] [Samples.alices]
             (Err "Error" "EACCES: permission denied, mkdir") eq_refl eq_refl).
  - reflexivity.
  - apply not_elem_of_empty.
  - reflexivity.
Defined.

Lemma main_returns_normally_witness :
  fst (main (Samples.calmHost [Samples.alices; Samples.stranger]) Samples.cfg
         ["node"; "cloneHw.js"; "hw1"] Samples.emptyWorld)
  = Normal tt.
Proof.
  apply (main_returns_normally
           (Samples.calmHost [Samples.alices; Samples.stranger]) Samples.cfg
           ["node"; "cloneHw.js"; "hw1"] "hw1" Samples.emptyWorld
           eq_refl eq_refl 200 None ["[...]"]
           [Samples.alices; Samples.stranger] eq_refl eq_refl).
  - repeat constructor; eexists; reflexivity.
  - right. reflexivity.
Defined.

Lemma main_uses_repoName_only_witness :
  main (Samples.calmHost [Samples.alices]) Samples.cfg
    ["node"; "cloneHw.js"; "hw1"; "--a"; "--b"; "--c"; "--force"]
    Samples.emptyWorld
  = main (Samples.calmHost [Samples.alices]) Samples.cfg
      ["ts-node"; "cloneHw.ts"; "hw1"] Samples.emptyWorld.
Proof.
  apply (main_uses_repoName_only (Samples.calmHost [Samples.alices])
           Samples.cfg
           ["node"; "cloneHw.js"; "hw1"; "--a"; "--b"; "--c"; "--force"]
           ["ts-node"; "cloneHw.ts"; "hw1"] Samples.emptyWorld).
  reflexivity.
Defined.
